(** * aig: layer stacks, Dockerfile text, image tags and the build/run flow

    A shallow embedding of the Go packages [aig/pkg/layers],
    [aig/pkg/docker] and the [run] command of [aig/pkg/cli].

    Go strings are byte sequences: they are modelled as [string], and
    [[]byte(s)] as [list_byte_of_string s].  Maps with string keys are
    [gmap string _], the engine client is an explicit record of step
    functions over an abstract engine state. *)

From Stdlib Require Import ZArith List String Ascii Strings.Byte Lia.
From stdpp Require Import gmap strings list.

Local Open Scope Z_scope.

(** ** Bytes and words *)

Definition byte_to_Z (b : byte) : Z := Z.of_N (Byte.to_N b).

Definition byte_of_Z (z : Z) : byte :=
  byte_of_ascii (ascii_of_N (Z.to_N (z mod 256))).

(** [uint32] arithmetic wraps modulo [2^32]. *)
Definition wrap32 (z : Z) : Z := z mod 2 ^ 32.
Definition add32 (a b : Z) : Z := wrap32 (a + b).
Definition not32 (a : Z) : Z := Z.lxor a 4294967295.

(** [bits.RotateLeft32 (x, -k)]: rotation to the right by [k] bits. *)
Definition rotr32 (x k : Z) : Z :=
  Z.lor (Z.shiftr x k) (wrap32 (Z.shiftl x (32 - k))).

(** [binary.BigEndian.PutUint32] and [PutUint64]. *)
Definition PutUint32 (v : Z) : list byte :=
  [byte_of_Z (Z.shiftr v 24); byte_of_Z (Z.shiftr v 16);
   byte_of_Z (Z.shiftr v 8); byte_of_Z v].

Definition PutUint64 (v : Z) : list byte :=
  PutUint32 (Z.shiftr v 32) ++ PutUint32 v.

(** ** crypto/sha256 *)

Module sha256.

Definition chunk : nat := 64.
Definition Size : nat := 32.

Definition init : list Z :=
  [0x6A09E667; 0xBB67AE85; 0x3C6EF372; 0xA54FF53A;
   0x510E527F; 0x9B05688C; 0x1F83D9AB; 0x5BE0CD19].

Definition _K : list Z :=
  [0x428A2F98; 0x71374491; 0xB5C0FBCF; 0xE9B5DBA5;
   0x3956C25B; 0x59F111F1; 0x923F82A4; 0xAB1C5ED5;
   0xD807AA98; 0x12835B01; 0x243185BE; 0x550C7DC3;
   0x72BE5D74; 0x80DEB1FE; 0x9BDC06A7; 0xC19BF174;
   0xE49B69C1; 0xEFBE4786; 0x0FC19DC6; 0x240CA1CC;
   0x2DE92C6F; 0x4A7484AA; 0x5CB0A9DC; 0x76F988DA;
   0x983E5152; 0xA831C66D; 0xB00327C8; 0xBF597FC7;
   0xC6E00BF3; 0xD5A79147; 0x06CA6351; 0x14292967;
   0x27B70A85; 0x2E1B2138; 0x4D2C6DFC; 0x53380D13;
   0x650A7354; 0x766A0ABB; 0x81C2C92E; 0x92722C85;
   0xA2BFE8A1; 0xA81A664B; 0xC24B8B70; 0xC76C51A3;
   0xD192E819; 0xD6990624; 0xF40E3585; 0x106AA070;
   0x19A4C116; 0x1E376C08; 0x2748774C; 0x34B0BCB5;
   0x391C0CB3; 0x4ED8AA4A; 0x5B9CCA4F; 0x682E6FF3;
   0x748F82EE; 0x78A5636F; 0x84C87814; 0x8CC70208;
   0x90BEFFFA; 0xA4506CEB; 0xBEF9A3F7; 0xC67178F2].

(** The state of a running hash: the eight chaining words [h], the bytes
    [x] buffered since the last full chunk (Go keeps them in [d.x[:d.nx]])
    and the number [len] of bytes written so far, a [uint64]. *)
Record digest := mkDigest {
  h : list Z;
  x : list byte;
  len : Z
}.

Definition New : digest := {| h := init; x := []; len := 0 |}.

(** The first sixteen words of the message schedule: big-endian words of
    one chunk. *)
Fixpoint load_words (n : nat) (p : list byte) : list Z :=
  match n with
  | O => []
  | S n' =>
    match p with
    | b0 :: b1 :: b2 :: b3 :: p' =>
      Z.lor (Z.lor (Z.lor (Z.shiftl (byte_to_Z b0) 24)
                          (Z.shiftl (byte_to_Z b1) 16))
                   (Z.shiftl (byte_to_Z b2) 8))
            (byte_to_Z b3) :: load_words n' p'
    | _ => []
    end
  end.

Definition word_at (w : list Z) (i : nat) : Z := nth i w 0.

(** Words 16..63 of the schedule; [w] holds the words computed so far. *)
Fixpoint extend (n : nat) (w : list Z) : list Z :=
  match n with
  | O => w
  | S n' =>
    let i := List.length w in
    let v1 := word_at w (i - 2) in
    let t1 := Z.lxor (Z.lxor (rotr32 v1 17) (rotr32 v1 19)) (Z.shiftr v1 10) in
    let v2 := word_at w (i - 15) in
    let t2 := Z.lxor (Z.lxor (rotr32 v2 7) (rotr32 v2 18)) (Z.shiftr v2 3) in
    extend n' (w ++ [add32 (add32 (add32 t1 (word_at w (i - 7))) t2)
                           (word_at w (i - 16))])
  end.

Definition regs : Type := Z * Z * Z * Z * Z * Z * Z * Z.

Definition round (r : regs) (k w : Z) : regs :=
  let '(a, b, c, d, e, f, g, hh) := r in
  let t1 :=
    add32 (add32 (add32 (add32 hh
      (Z.lxor (Z.lxor (rotr32 e 6) (rotr32 e 11)) (rotr32 e 25)))
      (Z.lxor (Z.land e f) (Z.land (not32 e) g))) k) w in
  let t2 :=
    add32 (Z.lxor (Z.lxor (rotr32 a 2) (rotr32 a 13)) (rotr32 a 22))
          (Z.lxor (Z.lxor (Z.land a b) (Z.land a c)) (Z.land b c)) in
  (add32 t1 t2, a, b, c, add32 d t1, e, f, g).

Fixpoint rounds (r : regs) (ks ws : list Z) : regs :=
  match ks, ws with
  | k :: ks', w :: ws' => rounds (round r k w) ks' ws'
  | _, _ => r
  end.

(** One iteration of the loop of [blockGeneric]: one 64-byte chunk. *)
Definition block1 (hs : list Z) (p : list byte) : list Z :=
  let w := extend 48 (load_words 16 p) in
  let h0 := word_at hs 0 in let h1 := word_at hs 1 in
  let h2 := word_at hs 2 in let h3 := word_at hs 3 in
  let h4 := word_at hs 4 in let h5 := word_at hs 5 in
  let h6 := word_at hs 6 in let h7 := word_at hs 7 in
  let '(a, b, c, d, e, f, g, hh) :=
    rounds (h0, h1, h2, h3, h4, h5, h6, h7) _K w in
  [add32 h0 a; add32 h1 b; add32 h2 c; add32 h3 d;
   add32 h4 e; add32 h5 f; add32 h6 g; add32 h7 hh].

(** [blockGeneric]: [for len(p) >= chunk { ...; p = p[chunk:] }], as [n]
    iterations. *)
Fixpoint block_iter (n : nat) (hs : list Z) (p : list byte) : list Z :=
  match n with
  | O => hs
  | S n' => block_iter n' (block1 hs (firstn chunk p)) (skipn chunk p)
  end.

Definition block (hs : list Z) (p : list byte) : list Z :=
  block_iter (List.length p / chunk) hs p.

(** [len(p) &^ (chunk - 1)] *)
Definition clear_low (n : nat) : nat :=
  Z.to_nat (Z.ldiff (Z.of_nat n) (Z.of_nat chunk - 1)).

(** [(d *digest) Write] *)
Definition Write (d : digest) (p : list byte) : digest :=
  let len' := (len d + Z.of_nat (List.length p)) mod 2 ^ 64 in
  let '(h1, x1, p1) :=
    if (0 <? List.length (x d))%nat then
      let n := Nat.min (chunk - List.length (x d)) (List.length p) in
      let x' := x d ++ firstn n p in
      if (List.length x' =? chunk)%nat
      then (block (h d) x', [], skipn n p)
      else (h d, x', skipn n p)
    else (h d, x d, p) in
  let '(h2, p2) :=
    if (chunk <=? List.length p1)%nat then
      let n := clear_low (List.length p1) in
      (block h1 (firstn n p1), skipn n p1)
    else (h1, p1) in
  let x3 := if (0 <? List.length p2)%nat then p2 else x1 in
  {| h := h2; x := x3; len := len' |}.

(** The padding written by [checkSum]: a one bit, zero bits up to 56 bytes
    modulo 64, and the length in bits as a big-endian [uint64]. *)
Definition padding (l : Z) : list byte :=
  let t := if l mod 64 <? 56 then 56 - l mod 64 else 64 + 56 - l mod 64 in
  (x80 :: repeat x00 (Z.to_nat t - 1)) ++ PutUint64 ((l * 8) mod 2 ^ 64).

(** [(d *digest) checkSum].  Go panics when [d.nx != 0] after the padding
    is written; [checkSum_buffer_empty] below shows that this cannot happen. *)
Definition checkSum (d : digest) : list byte :=
  let d' := Write d (padding (len d)) in
  flat_map PutUint32 (h d').

(** [(d *digest) Sum (nil)]: works on a copy of [d]. *)
Definition Sum (d : digest) : list byte := checkSum d.

(** [sha256.Sum256] *)
Definition Sum256 (data : list byte) : list byte := checkSum (Write New data).

End sha256.

(** ** fmt.Sprintf ("%x", bytes) *)

Definition hexdigit (n : Z) : ascii :=
  match String.get (Z.to_nat n) "0123456789abcdef" with
  | Some c => c
  | None => "0"%char
  end.

Fixpoint hex (bs : list byte) : string :=
  match bs with
  | [] => EmptyString
  | b :: bs' =>
    String (hexdigit (byte_to_Z b / 16))
      (String (hexdigit (byte_to_Z b mod 16)) (hex bs'))
  end.

(** ** Go string helpers *)

Definition dquote : string := String "034"%char EmptyString.
Definition newline : string := String "010"%char EmptyString.

(** [strings.Join] *)
Fixpoint Join (elems : list string) (sep : string) : string :=
  match elems with
  | [] => EmptyString
  | [e] => e
  | e :: rest => e +:+ sep +:+ Join rest sep
  end.

(** [strings.HasPrefix] *)
Definition HasPrefix (s pre : string) : bool := String.prefix pre s.

(** [strings.Contains] *)
Fixpoint Contains (s substr : string) : bool :=
  String.prefix substr s ||
  match s with
  | EmptyString => false
  | String _ s' => Contains s' substr
  end.

(** [strings.Split (s, sep)] for a separator [sep] of one byte: the
    pieces of [s] between the occurrences of [sep], at least one piece. *)
Fixpoint Split (s : string) (sep : ascii) : list string :=
  match s with
  | EmptyString => [EmptyString]
  | String c s' =>
    if Ascii.eqb c sep then EmptyString :: Split s' sep
    else match Split s' sep with
         | part :: parts => String c part :: parts
         | [] => [String c EmptyString]
         end
  end.

(** [s[:n]]: [None] stands for the run-time panic of a slice bound out of
    range. *)
Definition slice_to (s : string) (n : nat) : option string :=
  if (n <=? String.length s)%nat then Some (String.substring 0 n s) else None.

(** [strings.TrimSpace]: leading and trailing white space removed, white
    space being the runes of [unicode.IsSpace].  On the UTF-8 bytes of the
    string these are the six ASCII space bytes and the encodings of
    U+0085, U+00A0, U+1680, U+2000..U+200A, U+2028, U+2029, U+202F, U+205F
    and U+3000; a byte that starts no such encoding stops the trimming. *)
Definition asciiSpace (c : ascii) : bool :=
  let n := N_of_ascii c in
  ((9 <=? n) && (n <=? 13) || (n =? 32))%N.

Definition space2 (c1 c2 : ascii) : bool :=
  let a := N_of_ascii c1 in let b := N_of_ascii c2 in
  ((a =? 0xC2) && ((b =? 0x85) || (b =? 0xA0)))%N.

Definition space3 (c1 c2 c3 : ascii) : bool :=
  let a := N_of_ascii c1 in let b := N_of_ascii c2 in
  let c := N_of_ascii c3 in
  ((a =? 0xE1) && (b =? 0x9A) && (c =? 0x80) ||
   (a =? 0xE2) && (b =? 0x80) &&
     ((0x80 <=? c) && (c <=? 0x8A) || (c =? 0xA8) || (c =? 0xA9) || (c =? 0xAF)) ||
   (a =? 0xE2) && (b =? 0x81) && (c =? 0x9F) ||
   (a =? 0xE3) && (b =? 0x80) && (c =? 0x80))%N.

Fixpoint TrimLeftSpace (s : string) : string :=
  match s with
  | EmptyString => EmptyString
  | String c1 s1 =>
    if asciiSpace c1 then TrimLeftSpace s1
    else match s1 with
    | EmptyString => s
    | String c2 s2 =>
      if space2 c1 c2 then TrimLeftSpace s2
      else match s2 with
      | EmptyString => s
      | String c3 s3 => if space3 c1 c2 c3 then TrimLeftSpace s3 else s
      end
    end
  end.

(** The same from the end, on the reversed list of bytes. *)
Fixpoint trim_rev_space (r : list ascii) : list ascii :=
  match r with
  | [] => []
  | c1 :: r1 =>
    if asciiSpace c1 then trim_rev_space r1
    else match r1 with
    | [] => r
    | c2 :: r2 =>
      if space2 c2 c1 then trim_rev_space r2
      else match r2 with
      | [] => r
      | c3 :: r3 => if space3 c3 c2 c1 then trim_rev_space r3 else r
      end
    end
  end.

Definition TrimRightSpace (s : string) : string :=
  string_of_list_ascii (rev (trim_rev_space (rev (list_ascii_of_string s)))).

Definition TrimSpace (s : string) : string := TrimRightSpace (TrimLeftSpace s).

(** ** Errors *)

(** A Go [error]: one made by [fmt.Errorf], or one returned by the engine
    client, for which [client.IsErrNotFound] may hold. *)
Inductive error : Type :=
| Errorf (msg : string)
| ClientError (notFound : bool) (msg : string).

Definition IsErrNotFound (e : error) : bool :=
  match e with
  | Errorf _ => false
  | ClientError nf _ => nf
  end.

(** ** Package layers *)

Module layers.

Definition hashString (s : string) : string :=
  let h := sha256.New in
  let h := sha256.Write h (list_byte_of_string s) in
  hex (sha256.Sum h).

Module BaseLayer.
Record t := mk { Image : string; Volumes : list string; Ports : list string }.
Definition GetName (l : t) : string := "base".
Definition GetCommands (l : t) : list string := ["FROM " +:+ Image l].
Definition GetHash (l : t) : string :=
    hashString (Image l +:+ Join (Volumes l) "," +:+ Join (Ports l) ",").
Definition GetVolumes (l : t) : list string := Volumes l.
Definition GetPorts (l : t) : list string := Ports l.
End BaseLayer.

Module DependencyLayer.
Record t := mk {
    Name : string; Pkgs : list string;
    Volumes : list string; Ports : list string }.
Definition GetName (l : t) : string := Name l.
Definition GetCommands (l : t) : list string :=
    ["RUN apt-get update && apt-get install -y " +:+ Join (Pkgs l) " "
       +:+ " && rm -rf /var/lib/apt/lists/*"].
Definition GetHash (l : t) : string :=
    hashString (Join (Pkgs l) "," +:+ Join (Volumes l) "," +:+ Join (Ports l) ",").
Definition GetVolumes (l : t) : list string := Volumes l.
Definition GetPorts (l : t) : list string := Ports l.
End DependencyLayer.

Module CustomLayer.
Record t := mk {
    Name : string; Commands : list string;
    Volumes : list string; Ports : list string }.
Definition GetName (l : t) : string := Name l.
Definition GetCommands (l : t) : list string := Commands l.
Definition GetHash (l : t) : string :=
    hashString (Name l +:+ Join (Commands l) "" +:+ Join (Volumes l) ""
                  +:+ Join (Ports l) "").
Definition GetVolumes (l : t) : list string := Volumes l.
Definition GetPorts (l : t) : list string := Ports l.
End CustomLayer.

Module TopLayer.
Record t := mk {
    Name : string; BinaryURL : string; BinaryPath : string;
    Volumes : list string; Ports : list string }.
Definition GetName (l : t) : string := Name l.
Definition GetCommands (l : t) : list string :=
    let cmds := [] in
    let cmds :=
      if HasPrefix (BinaryURL l) "http"
      then cmds ++ ["ADD " +:+ BinaryURL l +:+ " " +:+ BinaryPath l]
      else cmds ++ ["COPY " +:+ BinaryURL l +:+ " " +:+ BinaryPath l] in
    let cmds := cmds ++ ["RUN chmod +x " +:+ BinaryPath l] in
    let cmds := cmds ++ ["ENTRYPOINT [" +:+ dquote +:+ BinaryPath l +:+ dquote +:+ "]"] in
    cmds.
Definition GetHash (l : t) : string :=
    hashString (BinaryURL l +:+ ":" +:+ BinaryPath l +:+ Join (Volumes l) ","
                  +:+ Join (Ports l) ",").
Definition GetVolumes (l : t) : list string := Volumes l.
Definition GetPorts (l : t) : list string := Ports l.
End TopLayer.

Module CustomTopLayer.
Record t := mk {
    Name : string; Commands : list string;
    Entry : list string; HashKey : string }.
Definition GetName (l : t) : string := Name l.
Definition GetCommands (l : t) : list string :=
    let cmds := [] ++ Commands l in
    if (0 <? List.length (Entry l))%nat
    then cmds ++ ["ENTRYPOINT [" +:+ dquote
                    +:+ Join (Entry l) (dquote +:+ ", " +:+ dquote)
                    +:+ dquote +:+ "]"]
    else cmds.
Definition GetHash (l : t) : string :=
    hashString (Name l +:+ HashKey l +:+ Join (Commands l) ""
                  +:+ Join (Entry l) "").
Definition GetVolumes (l : t) : list string := [].
Definition GetPorts (l : t) : list string := [].
End CustomTopLayer.

(** The interface [Layer] with its five implementations. *)
Inductive Layer : Type :=
| Base (l : BaseLayer.t)
| Dependency (l : DependencyLayer.t)
| Custom (l : CustomLayer.t)
| Top (l : TopLayer.t)
| CustomTop (l : CustomTopLayer.t).

Definition GetName (l : Layer) : string :=
  match l with
  | Base b => BaseLayer.GetName b
  | Dependency d => DependencyLayer.GetName d
  | Custom c => CustomLayer.GetName c
  | Top t => TopLayer.GetName t
  | CustomTop t => CustomTopLayer.GetName t
  end.

Definition GetCommands (l : Layer) : list string :=
  match l with
  | Base b => BaseLayer.GetCommands b
  | Dependency d => DependencyLayer.GetCommands d
  | Custom c => CustomLayer.GetCommands c
  | Top t => TopLayer.GetCommands t
  | CustomTop t => CustomTopLayer.GetCommands t
  end.

Definition GetHash (l : Layer) : string :=
  match l with
  | Base b => BaseLayer.GetHash b
  | Dependency d => DependencyLayer.GetHash d
  | Custom c => CustomLayer.GetHash c
  | Top t => TopLayer.GetHash t
  | CustomTop t => CustomTopLayer.GetHash t
  end.

Definition GetVolumes (l : Layer) : list string :=
  match l with
  | Base b => BaseLayer.GetVolumes b
  | Dependency d => DependencyLayer.GetVolumes d
  | Custom c => CustomLayer.GetVolumes c
  | Top t => TopLayer.GetVolumes t
  | CustomTop t => CustomTopLayer.GetVolumes t
  end.

Definition GetPorts (l : Layer) : list string :=
  match l with
  | Base b => BaseLayer.GetPorts b
  | Dependency d => DependencyLayer.GetPorts d
  | Custom c => CustomLayer.GetPorts c
  | Top t => TopLayer.GetPorts t
  | CustomTop t => CustomTopLayer.GetPorts t
  end.

(** The package variable [registry], passed explicitly. *)
Definition Register (l : Layer) (registry : gmap string Layer)
  : gmap string Layer :=
  <[GetName l := l]> registry.

Definition Get (registry : gmap string Layer) (name : string)
  : Layer + error :=
  match registry !! name with
  | Some l => inl l
  | None => inr (Errorf ("layer " +:+ name +:+ " not found"))
  end.

(** [GetAllNames]: Go ranges over the map in an order it leaves
    unspecified, so the result is any list that holds the keys of the
    registry, each once. *)
Definition GetAllNames (registry : gmap string Layer) (names : list string)
  : Prop :=
  Permutation names (fst <$> map_to_list registry).

(** The registry after the package's [init]. *)
Definition init_registry : gmap string Layer :=
  let r := ∅ in
  let r := Register (Dependency (DependencyLayer.mk "python" ["python3"; "python3-pip"] [] [])) r in
  let r := Register (Dependency (DependencyLayer.mk "node" ["nodejs"; "npm"] [] [])) r in
  let r := Register (Dependency (DependencyLayer.mk "go" ["golang"] [] [])) r in
  let r := Register (Dependency (DependencyLayer.mk "nginx" ["nginx"] [] ["80"])) r in
  let r := Register (Custom (CustomLayer.mk "node-pnpm"
    ["RUN apt-get update && apt-get install -y nodejs npm && rm -rf /var/lib/apt/lists/*";
     "RUN npm install -g pnpm"] [] [])) r in
  let r := Register (CustomTop (CustomTopLayer.mk "opencode"
    ["RUN apt-get update && apt-get install -y nodejs npm && rm -rf /var/lib/apt/lists/*";
     "RUN npm install -g pnpm";
     "RUN pnpm add -g opencode-ai"] ["opencode"] "v1.1.59")) r in
  let r := Register (Top (TopLayer.mk "hello-world"
    "https://github.com/docker-library/hello-world/raw/master/hello" "/hello" [] [])) r in
  r.

End layers.

(** ** The engine client *)

(** [nat.PortBinding] *)
Record PortBinding := mkPortBinding { HostIP : string; HostPort : string }.

Module container.
Record Config := mkConfig {
    Image : string; Tty : bool; ExposedPorts : gset string }.
Record HostConfig := mkHostConfig {
    Binds : list string; PortBindings : gmap string (list PortBinding) }.
End container.

(** [types.ImageBuildOptions], and the build context: a tar archive with
    one file. *)
Record TarFile := mkTarFile { tarName : string; tarBody : string }.

Record ImageBuildOptions := mkImageBuildOptions {
Context : list TarFile; Dockerfile : string;
  Tags : list string; Remove : bool }.

(** The body of a build response, as [io.Copy] sees it: the output read
    and the error, if any, that ended the reading. *)
Record BuildBody := mkBuildBody { bodyOutput : string; bodyError : option error }.

(** What the [select] on the two channels of [ContainerWait] receives:
    a value from [errCh] (possibly [nil]) or a status from [statusCh]. *)
Inductive WaitResult : Type :=
| FromErrCh (err : option error)
| FromStatusCh.

(** The calls of [client.Client] used by the builder, over an engine state
    [W]; an error return is [Some e] or [inr e]. *)
Record Client (W : Type) := mkClient {
  ImageInspectWithRaw : string -> W -> option error * W;
  ImageBuild : list TarFile -> ImageBuildOptions -> W -> (BuildBody + error) * W;
  ContainerCreate :
    container.Config -> container.HostConfig -> W -> (string + error) * W;
  ContainerStart : string -> W -> option error * W;
  ContainerWait : string -> W -> WaitResult * W;
  ContainerLogs : string -> W -> option error * W
}.

Arguments ImageInspectWithRaw {W}.
Arguments ImageBuild {W}.
Arguments ContainerCreate {W}.
Arguments ContainerStart {W}.
Arguments ContainerWait {W}.
Arguments ContainerLogs {W}.

(** What a run does, in order: registry lookups, engine calls and writes
    to standard output. *)
Inductive event : Type :=
| RegistryGet (name : string)
| Printf (s : string)
| CallImageInspect (name : string)
| CallImageBuild (opts : ImageBuildOptions)
| CopyBuildOutput (out : string)
| CallContainerCreate (cfg : container.Config) (host : container.HostConfig)
| CallContainerStart (id : string)
| CallContainerWait (id : string)
| CallContainerLogs (id : string)
| GoCopyLogs (id : string).

(** How a Go function of result type [(A, error)] ends. *)
Inductive outcome (A : Type) : Type :=
| Returned (a : A)
| Failed (e : error)
| Panicked.

Arguments Returned {A}.
Arguments Failed {A}.
Arguments Panicked {A}.

(** Computations over the engine state and the trace of events. *)
Definition M (W A : Type) : Type := W * list event -> outcome A * (W * list event).

Definition ret {W A} (a : A) : M W A := fun s => (Returned a, s).
Definition fail {W A} (e : error) : M W A := fun s => (Failed e, s).
Definition panic {W A} : M W A := fun s => (Panicked, s).

Definition bind {W A B} (c : M W A) (k : A -> M W B) : M W B :=
  fun s =>
    match c s with
    | (Returned a, s') => k a s'
    | (Failed e, s') => (Failed e, s')
    | (Panicked, s') => (Panicked, s')
    end.

Definition tell {W} (ev : event) : M W unit :=
  fun s => (Returned tt, (s.1, s.2 ++ [ev])).

Definition call {W R} (ev : event) (f : W -> R * W) : M W R :=
  fun s => let '(r, w) := f s.1 in (Returned r, (w, s.2 ++ [ev])).

Notation "x <- c ;; k" := (bind c (fun x => k))
  (at level 100, c at next level, right associativity).
Notation "c ;;; k" := (bind c (fun _ => k))
  (at level 100, right associativity).

(** ** Package docker *)

Module docker.

(** The body of the loop over [ports] in [runContainer]; [None] stands for
    the panic of [parts[0]] on an empty slice. *)
Definition portEntry
    (acc : gset string * gmap string (list PortBinding)) (p : string)
  : option (gset string * gmap string (list PortBinding)) :=
  let '(exposedPorts, portBindings) := acc in
  let parts := Split p ":" in
  match
    (if (List.length parts =? 2)%nat
     then match parts with
          | [p0; p1] => Some (p0, p1)
          | _ => None
          end
     else match parts with
          | p0 :: _ => Some (EmptyString, p0)
          | [] => None
          end)
  with
  | None => None
  | Some (hostPort, containerPort) =>
    let containerPort :=
      if negb (Contains containerPort "/")
      then containerPort +:+ "/tcp" else containerPort in
    let cPort := containerPort in
    let exposedPorts := {[cPort]} ∪ exposedPorts in
    let portBindings :=
      if negb (String.eqb hostPort "")
      then <[cPort := [mkPortBinding "0.0.0.0" hostPort]]> portBindings
      else portBindings in
    Some (exposedPorts, portBindings)
  end.

Fixpoint portLoop
    (acc : gset string * gmap string (list PortBinding)) (ports : list string)
  : option (gset string * gmap string (list PortBinding)) :=
  match ports with
  | [] => Some acc
  | p :: ports' =>
    match portEntry acc p with
    | Some acc' => portLoop acc' ports'
    | None => None
    end
  end.

(** [(sb *strings.Builder) WriteString] *)
Definition WriteString (sb s : string) : string := sb +:+ s.

Definition generateDockerfile (base : layers.Layer) (selected : list layers.Layer)
  : string :=
  let sb := EmptyString in
  let sb :=
    fold_left (fun sb cmd => WriteString sb (cmd +:+ newline))
              (layers.GetCommands base) sb in
  let sb :=
    fold_left (fun sb l =>
      fold_left (fun sb cmd => WriteString sb (cmd +:+ newline))
                (layers.GetCommands l) sb)
      selected sb in
  sb.

(** [None]: the panic of the slice [[:12]]. *)
Definition calculateTag (base : layers.Layer) (selected : list layers.Layer)
  : option string :=
  let h := sha256.New in
  let h := sha256.Write h (list_byte_of_string (layers.GetHash base)) in
  let h :=
    fold_left (fun h l => sha256.Write h (list_byte_of_string (layers.GetHash l)))
              selected h in
  slice_to (hex (sha256.Sum h)) 12.

Section Builder.
Context {W : Type}.
  (** The field [cli] of the [Builder]. *)
Variable cli : Client W.

Definition imageExists (name : string) : M W bool :=
    err <- call (CallImageInspect name) (ImageInspectWithRaw cli name) ;;
    match err with
    | Some e => if IsErrNotFound e then ret false else fail e
    | None => ret true
    end.

  (** The tar writer writes to a buffer in memory and the header is
      valid, so [WriteHeader], [Write] and [Close] return no error. *)
Definition buildImage (dockerfile tag : string) : M W unit :=
    let buf := [mkTarFile "Dockerfile" dockerfile] in
    let options := mkImageBuildOptions buf "Dockerfile" [tag] true in
    resp <- call (CallImageBuild options) (ImageBuild cli buf options) ;;
    match resp with
    | inr err => fail err
    | inl body =>
      tell (CopyBuildOutput (bodyOutput body)) ;;;
      match bodyError body with
      | Some err => fail err
      | None => ret tt
      end
    end.

Definition runContainer (imageName : string) (volumes ports : list string)
    : M W unit :=
    match portLoop (∅, ∅) ports with
    | None => panic
    | Some (exposedPorts, portBindings) =>
      let cfg := container.mkConfig imageName true exposedPorts in
      let host := container.mkHostConfig volumes portBindings in
      resp <- call (CallContainerCreate cfg host) (ContainerCreate cli cfg host) ;;
      match resp with
      | inr err => fail err
      | inl id =>
        err <- call (CallContainerStart id) (ContainerStart cli id) ;;
        match err with
        | Some err => fail err
        | None =>
          match slice_to id 12 with
          | None => panic
          | Some short =>
            tell (Printf ("Container started (ID: " +:+ short +:+ ")" +:+ newline)) ;;;
            res <- call (CallContainerWait id) (ContainerWait cli id) ;;
            err <- call (CallContainerLogs id) (ContainerLogs cli id) ;;
            (match err with
             | None => tell (GoCopyLogs id)
             | Some _ => ret tt
             end) ;;;
            match res with
            | FromErrCh (Some err) => fail err
            | FromErrCh None => ret tt
            | FromStatusCh => ret tt
            end
          end
        end
      end
    end.

Definition BuildAndRun (base : layers.Layer) (selectedLayers : list layers.Layer)
    : M W unit :=
    let dockerfile := generateDockerfile base selectedLayers in
    match calculateTag base selectedLayers with
    | None => panic
    | Some tag =>
      let imageName := "aig-image:" +:+ tag in
      let volumes := [] in
      let ports := [] in
      let volumes := volumes ++ layers.GetVolumes base in
      let ports := ports ++ layers.GetPorts base in
      let '(volumes, ports) :=
        fold_left (fun '(volumes, ports) l =>
                     (volumes ++ layers.GetVolumes l, ports ++ layers.GetPorts l))
                  selectedLayers (volumes, ports) in
      exists_ <- imageExists imageName ;;
      (if negb exists_
       then tell (Printf ("Building image " +:+ imageName +:+ "..." +:+ newline)) ;;;
            buildImage dockerfile imageName
       else tell (Printf ("Using cached image " +:+ imageName +:+ newline))) ;;;
      runContainer imageName volumes ports
    end.

End Builder.

End docker.

(** ** The run command of package cli *)

Module cli.

(** The package variables set by the flags of the command. *)
Record Flags := mkFlags {
  baseImage : string;
  layerNames : list string;
  topLayerName : string;
  volumes : list string;
  ports : list string
}.

Section RunE.
Context {W : Type}.

Definition lookup (registry : gmap string layers.Layer) (name : string)
    : M W layers.Layer :=
    tell (RegistryGet name) ;;;
    match layers.Get registry name with
    | inl l => ret l
    | inr err => fail err
    end.

  (** [for _, name := range layerNames { ... }] *)
Fixpoint selectLayers (registry : gmap string layers.Layer)
      (names : list string) (selectedLayers : list layers.Layer)
    : M W (list layers.Layer) :=
    match names with
    | [] => ret selectedLayers
    | name :: names' =>
      l <- lookup registry (TrimSpace name) ;;
      selectLayers registry names' (selectedLayers ++ [l])
    end.

  (** Lines 36 to 51 of the command: the selected layers, then the top
      layer when one is named. *)
Definition assembleStack (registry : gmap string layers.Layer) (fl : Flags)
    : M W (list layers.Layer) :=
    selectedLayers <- selectLayers registry (layerNames fl) [] ;;
    if negb (String.eqb (topLayerName fl) "")
    then top <- lookup registry (topLayerName fl) ;;
         ret (selectedLayers ++ [top])
    else ret selectedLayers.

  (** [runCmd.RunE]; [newBuilder] is the result of [docker.NewBuilder ()],
      the engine client or the error of its construction. *)
Definition RunE (newBuilder : Client W + error)
      (registry : gmap string layers.Layer) (fl : Flags) : M W unit :=
    match newBuilder with
    | inr err => fail err
    | inl builder =>
      let base := layers.Base
        (layers.BaseLayer.mk (baseImage fl) (volumes fl) (ports fl)) in
      selectedLayers <- assembleStack registry fl ;;
      docker.BuildAndRun builder base selectedLayers
    end.

End RunE.

End cli.

(** ** Two engines to run the builder on *)

(** An engine whose state is the set of images it holds: an image is found
    when it is in the set, a build adds its tags. *)
Definition model_engine : Client (gset string) := {|
  ImageInspectWithRaw name images :=
    (if bool_decide (name ∈ images) then None
     else Some (ClientError true ("No such image: " +:+ name)), images);
  ImageBuild ctx opts images :=
    (inl (mkBuildBody "Successfully built" None), list_to_set (Tags opts) ∪ images);
  ContainerCreate cfg host images :=
    (if bool_decide (container.Image cfg ∈ images)
     then inl "4f1c0a9be2d37a55c0de"
     else inr (ClientError true ("No such image: " +:+ container.Image cfg)), images);
  ContainerStart id images := (None, images);
  ContainerWait id images := (FromStatusCh, images);
  ContainerLogs id images := (None, images)
|}.

(** An engine that cannot be reached: every call fails, and not with a
    not-found error. *)
Definition unreachable : error :=
  ClientError false "Cannot connect to the Docker daemon".

Definition unreachable_engine : Client unit := {|
  ImageInspectWithRaw name w := (Some unreachable, w);
  ImageBuild ctx opts w := (inr unreachable, w);
  ContainerCreate cfg host w := (inr unreachable, w);
  ContainerStart id w := (Some unreachable, w);
  ContainerWait id w := (FromErrCh (Some unreachable), w);
  ContainerLogs id w := (Some unreachable, w)
|}.

(** ** Vocabulary of the specification *)

(** The invariant of a running hash: eight chaining words, fewer than a
    chunk of buffered bytes, as many as the length says. *)
Definition wf (d : sha256.digest) : Prop :=
  List.length (sha256.h d) = 8%nat /\
  (List.length (sha256.x d) < 64)%nat /\
  sha256.len d mod 64 = Z.of_nat (List.length (sha256.x d)).

(** What [Write] amounts to: the full chunks of the buffered bytes followed
    by the new ones are hashed, the rest is buffered. *)
Definition absorb (d : sha256.digest) (p : list byte) : sha256.digest :=
  let buf := sha256.x d ++ p in
  let k := (List.length buf / 64)%nat in
  {| sha256.h := sha256.block_iter k (sha256.h d) buf;
     sha256.x := skipn (64 * k) buf;
     sha256.len := (sha256.len d + Z.of_nat (List.length p)) mod 2 ^ 64 |}.

Definition is_lower_hex (c : ascii) : bool :=
  let n := N_of_ascii c in
  ((48 <=? n) && (n <=? 57) || (97 <=? n) && (n <=? 102))%N.

(** The inverse of [hexdigit], and of two digits. *)
Definition unhexdigit (c : ascii) : Z :=
  let n := Z.of_N (N_of_ascii c) in
  if n <=? 57 then n - 48 else n - 87.

Definition unhex_byte (c1 c2 : ascii) : byte :=
  byte_of_Z (16 * unhexdigit c1 + unhexdigit c2).

(** The fingerprints of a stack, concatenated in stack order. *)
Definition concat_fingerprints (stack : list layers.Layer) : string :=
  fold_right String.append EmptyString (map layers.GetHash stack).

(** Instructions, each followed by one newline. *)
Definition lines (cmds : list string) : string :=
  fold_right (fun cmd rest => cmd +:+ newline +:+ rest) EmptyString cmds.

(** The merged volume and port lists of a stack. *)
Definition merged_volumes (stack : list layers.Layer) : list string :=
  List.concat (map layers.GetVolumes stack).

Definition merged_ports (stack : list layers.Layer) : list string :=
  List.concat (map layers.GetPorts stack).

(** The text a fingerprint is the digest of. *)
Definition content (l : layers.Layer) : string :=
  match l with
  | layers.Base b =>
    layers.BaseLayer.Image b +:+ Join (layers.BaseLayer.Volumes b) ","
      +:+ Join (layers.BaseLayer.Ports b) ","
  | layers.Dependency d =>
    Join (layers.DependencyLayer.Pkgs d) ","
      +:+ Join (layers.DependencyLayer.Volumes d) ","
      +:+ Join (layers.DependencyLayer.Ports d) ","
  | layers.Custom c =>
    layers.CustomLayer.Name c +:+ Join (layers.CustomLayer.Commands c) ""
      +:+ Join (layers.CustomLayer.Volumes c) ""
      +:+ Join (layers.CustomLayer.Ports c) ""
  | layers.Top t =>
    layers.TopLayer.BinaryURL t +:+ ":" +:+ layers.TopLayer.BinaryPath t
      +:+ Join (layers.TopLayer.Volumes t) ","
      +:+ Join (layers.TopLayer.Ports t) ","
  | layers.CustomTop t =>
    layers.CustomTopLayer.Name t +:+ layers.CustomTopLayer.HashKey t
      +:+ Join (layers.CustomTopLayer.Commands t) ""
      +:+ Join (layers.CustomTopLayer.Entry t) ""
  end.

(** Two layers of one variant that agree on every field but the name. *)
Definition same_content (l1 l2 : layers.Layer) : Prop :=
  match l1, l2 with
  | layers.Base a, layers.Base b => a = b
  | layers.Dependency a, layers.Dependency b =>
    layers.DependencyLayer.Pkgs a = layers.DependencyLayer.Pkgs b /\
    layers.DependencyLayer.Volumes a = layers.DependencyLayer.Volumes b /\
    layers.DependencyLayer.Ports a = layers.DependencyLayer.Ports b
  | layers.Custom a, layers.Custom b =>
    layers.CustomLayer.Commands a = layers.CustomLayer.Commands b /\
    layers.CustomLayer.Volumes a = layers.CustomLayer.Volumes b /\
    layers.CustomLayer.Ports a = layers.CustomLayer.Ports b
  | layers.Top a, layers.Top b =>
    layers.TopLayer.BinaryURL a = layers.TopLayer.BinaryURL b /\
    layers.TopLayer.BinaryPath a = layers.TopLayer.BinaryPath b /\
    layers.TopLayer.Volumes a = layers.TopLayer.Volumes b /\
    layers.TopLayer.Ports a = layers.TopLayer.Ports b
  | layers.CustomTop a, layers.CustomTop b =>
    layers.CustomTopLayer.Commands a = layers.CustomTopLayer.Commands b /\
    layers.CustomTopLayer.Entry a = layers.CustomTopLayer.Entry b /\
    layers.CustomTopLayer.HashKey a = layers.CustomTopLayer.HashKey b
  | _, _ => False
  end.

(** The variants whose fingerprint leaves the name out. *)
Definition name_free (l : layers.Layer) : bool :=
  match l with
  | layers.Base _ | layers.Dependency _ | layers.Top _ => true
  | layers.Custom _ | layers.CustomTop _ => false
  end.

(** Port specs: the number of separators, the text before the first one and
    the text after it. *)
Fixpoint count_sep (sep : ascii) (s : string) : nat :=
  match s with
  | EmptyString => 0
  | String c s' => (if Ascii.eqb c sep then 1 else 0) + count_sep sep s'
  end.

Fixpoint before_sep (sep : ascii) (s : string) : string :=
  match s with
  | EmptyString => EmptyString
  | String c s' =>
    if Ascii.eqb c sep then EmptyString else String c (before_sep sep s')
  end.

Fixpoint after_sep (sep : ascii) (s : string) : string :=
  match s with
  | EmptyString => EmptyString
  | String c s' => if Ascii.eqb c sep then s' else after_sep sep s'
  end.

(** The container port with its protocol: [/tcp] unless one is given. *)
Definition with_proto (containerPort : string) : string :=
  if Contains containerPort "/" then containerPort else containerPort +:+ "/tcp".

(** Events and traces. *)
Definition is_build (ev : event) : bool :=
  match ev with
  | CallImageBuild _ => true
  | _ => false
  end.

(** A computation only adds events, all of them satisfying [P]. *)
Definition adds_only {W A} (P : event -> Prop) (c : M W A) : Prop :=
  forall s, exists evs, (c s).2.2 = s.2 ++ evs /\ Forall P evs.

(** The options [buildImage] submits. *)
Definition build_options (dockerfile imageName : string) : ImageBuildOptions :=
  mkImageBuildOptions [mkTarFile "Dockerfile" dockerfile] "Dockerfile"
                      [imageName] true.

(** The error of [layers.Get], and the lookups of a list of names. *)
Definition not_found (key : string) : error :=
  Errorf ("layer " +:+ key +:+ " not found").

Definition lookups (names : list string) : list event :=
  map (fun name => RegistryGet (TrimSpace name)) names.

(** An engine that answers every call with a fixed response. *)
Definition scripted_engine (inspect : option error) (build : BuildBody + error)
    (create : string + error) (start : option error) (wait : WaitResult)
    (logs : option error) : Client unit := {|
  ImageInspectWithRaw name w := (inspect, w);
  ImageBuild ctx opts w := (build, w);
  ContainerCreate cfg host w := (create, w);
  ContainerStart id w := (start, w);
  ContainerWait id w := (wait, w);
  ContainerLogs id w := (logs, w)
|}.

(** The parts of a port spec as the loop of [runContainer] reads them: the
    host part is empty unless the spec has exactly one colon. *)
Definition host_part (p : string) : string :=
  if (count_sep ":" p =? 1)%nat then before_sep ":" p else EmptyString.

Definition container_part (p : string) : string :=
  if (count_sep ":" p =? 1)%nat then after_sep ":" p else before_sep ":" p.

Definition exposed_port (p : string) : string := with_proto (container_part p).

(** Whether a spec binds the container port [c] to a host port. *)
Definition binds_port (c p : string) : bool :=
  String.eqb (exposed_port p) c && negb (String.eqb (host_part p) "").

(** How the [select] at the end of [runContainer] ends the run. *)
Definition wait_outcome (res : WaitResult) : outcome unit :=
  match res with
  | FromErrCh (Some err) => Failed err
  | FromErrCh None => Returned tt
  | FromStatusCh => Returned tt
  end.

(** The line printed once the container is started. *)
Definition started_line (short : string) : event :=
  Printf ("Container started (ID: " +:+ short +:+ ")" +:+ newline).

(** The registry after registering the layers of a list, first to last. *)
Definition register_all (ls : list layers.Layer) : gmap string layers.Layer :=
  fold_left (fun registry l => layers.Register l registry) ls ∅.

(** Every bound port is exposed, and bound to one host port on all
    interfaces. *)
Definition bindings_ok (acc : gset string * gmap string (list PortBinding))
  : Prop :=
  forall c bs, acc.2 !! c = Some bs ->
    c ∈ acc.1 /\
    exists host, host <> EmptyString /\ bs = [mkPortBinding "0.0.0.0" host].

(** * Properties *)

(** ** SHA-256 test vectors *)

Example sha256_abc :
  hex (sha256.Sum256 (list_byte_of_string "abc")) =
  "ba7816bf8f01cfea414140de5dae2223b00361a396177a9cb410ff61f20015ad"%string.
Proof. vm_compute. reflexivity. Qed.

Example sha256_empty :
  hex (sha256.Sum256 []) =
  "e3b0c44298fc1c149afbf4c8996fb92427ae41e4649b934ca495991b7852b855"%string.
Proof. vm_compute. reflexivity. Qed.

Example sha256_two_blocks :
  hex (sha256.Sum256 (list_byte_of_string
    "abcdbcdecdefdefgefghfghighijhijkijkljklmklmnlmnomnopnopq")) =
  "248d6a61d20638b8e5c026930c3e6039a33ce45964ff2167f6ecedd419db06c1"%string.
Proof. vm_compute. reflexivity. Qed.

(** ** The running hash *)

Module sha256_facts.
Import sha256.

Lemma clear_low_div n : clear_low n = (64 * (n / 64))%nat.
Proof.
  unfold clear_low, chunk.
  change (Z.of_nat 64 - 1) with (Z.ones 6).
  rewrite Z.ldiff_ones_r by lia.
  rewrite Z.shiftr_div_pow2, Z.shiftl_mul_pow2 by lia.
  change (2 ^ 6) with (Z.of_nat 64).
  rewrite <- Nat2Z.inj_div, <- Nat2Z.inj_mul, Nat2Z.id. lia.
Qed.

Lemma block_iter_split k1 k2 hs p :
  block_iter (k1 + k2) hs p =
  block_iter k2 (block_iter k1 hs p) (skipn (64 * k1) p).
Proof.
  revert hs p. induction k1 as [|k1 IH]; intros hs p.
  - reflexivity.
  - cbn [Nat.add block_iter]. rewrite IH. unfold chunk.
    rewrite skipn_skipn. do 2 f_equal. lia.
Qed.

Lemma block_iter_prefix k hs (a b : list byte) :
  (64 * k <= List.length a)%nat ->
  block_iter k hs (a ++ b) = block_iter k hs a.
Proof.
  revert hs a. induction k as [|k IH]; intros hs a Hk.
  - reflexivity.
  - cbn [block_iter]. unfold chunk.
    rewrite firstn_app, skipn_app.
    replace (64 - List.length a)%nat with 0%nat by lia.
    cbn [firstn skipn]. rewrite app_nil_r.
    apply IH. rewrite length_skipn. lia.
Qed.

Lemma block_iter_firstn k hs (p : list byte) :
  (64 * k <= List.length p)%nat ->
  block_iter k hs (firstn (64 * k) p) = block_iter k hs p.
Proof.
  intros Hk. rewrite <- (firstn_skipn (64 * k) p) at 2.
  symmetry. apply block_iter_prefix. rewrite length_firstn. lia.
Qed.

(** The second step of [Write]: all the full chunks of [p]. *)
Lemma Write_full_chunks hs (p : list byte) :
  (if (chunk <=? List.length p)%nat
   then (block hs (firstn (clear_low (List.length p)) p),
         skipn (clear_low (List.length p)) p)
   else (hs, p)) =
  (block_iter (List.length p / 64) hs p,
   skipn (64 * (List.length p / 64)) p).
Proof.
  unfold chunk. destruct (Nat.leb_spec 64 (List.length p)) as [Hge|Hlt].
  - rewrite clear_low_div. unfold block, chunk.
    pose proof (Nat.Div0.mul_div_le (List.length p) 64) as Hle.
    rewrite length_firstn, Nat.min_l by lia.
    rewrite Nat.mul_comm, Nat.div_mul by lia.
    rewrite Nat.mul_comm, block_iter_firstn by lia. reflexivity.
  - rewrite Nat.div_small by lia. reflexivity.
Qed.

Lemma Write_absorb d p :
  (List.length (x d) < 64)%nat -> Write d p = absorb d p.
Proof.
  intros Hx. unfold Write, absorb.
  destruct (Nat.ltb_spec 0 (List.length (x d))) as [Hpos|Hzero].
  - set (n := Nat.min (chunk - List.length (x d)) (List.length p)).
    destruct (Nat.eqb_spec (List.length (x d ++ firstn n p)) chunk) as [Hfull|Hpart].
    + rewrite Write_full_chunks.
      assert (Hn : n = (64 - List.length (x d))%nat).
      { rewrite length_app, length_firstn in Hfull. unfold chunk in *. lia. }
      assert (Hp : (64 - List.length (x d) <= List.length p)%nat).
      { unfold n, chunk in Hn. lia. }
      assert (Hsk : skipn 64 (x d ++ p) = skipn n p).
      { rewrite skipn_app, skipn_all2 by lia. rewrite Hn. reflexivity. }
      assert (Hk : (List.length (x d ++ p) / 64 = 1 + List.length (skipn n p) / 64)%nat).
      { rewrite length_app, length_skipn, Hn.
        replace (List.length (x d) + List.length p)%nat
          with (1 * 64 + (List.length p - (64 - List.length (x d))))%nat by lia.
        rewrite Nat.div_add_l by lia. reflexivity. }
      rewrite Hk. rewrite (block_iter_split 1).
      replace (64 * (1 + List.length (skipn n p) / 64))%nat
        with (64 * (List.length (skipn n p) / 64) + 64)%nat by lia.
      rewrite <- skipn_skipn, Nat.mul_1_r, Hsk.
      assert (Hb : block (h d) (x d ++ firstn n p) = block_iter 1 (h d) (x d ++ p)).
      { unfold block. rewrite Hfull. unfold chunk. rewrite Nat.div_same by lia.
        cbn [block_iter]. unfold chunk. apply (f_equal (block1 (h d))).
        rewrite !firstn_app. rewrite Hn.
        rewrite firstn_firstn, Nat.min_id. reflexivity. }
      rewrite Hb.
      destruct (Nat.ltb_spec 0 (List.length (skipn (64 * (List.length (skipn n p) / 64)) (skipn n p)))) as [H1|H1].
      * reflexivity.
      * f_equal. destruct (skipn (64 * _) (skipn n p)); [reflexivity|simpl in H1; lia].
    + assert (Hn : n = List.length p).
      { rewrite length_app, length_firstn in Hpart. unfold n, chunk in *. lia. }
      assert (Hsmall : (List.length (x d ++ p) / 64 = 0)%nat).
      { apply Nat.div_small. rewrite length_app in *.
        rewrite length_firstn in Hpart. unfold n, chunk in *. lia. }
      rewrite Hsmall, Hn, firstn_all, skipn_all. reflexivity.
  - assert (Hnil : x d = []) by (destruct (x d); [reflexivity|simpl in Hzero; lia]).
    rewrite Hnil. cbn [app]. rewrite Write_full_chunks.
    destruct (Nat.ltb_spec 0 (List.length (skipn (64 * (List.length p / 64)) p))) as [H1|H1].
    + reflexivity.
    + f_equal. destruct (skipn _ p); [reflexivity|simpl in H1; lia].
Qed.

Lemma absorb_buffer_short d p : (List.length (x (absorb d p)) < 64)%nat.
Proof.
  unfold absorb. cbn [x]. rewrite length_skipn.
  pose proof (Nat.div_mod_eq (List.length (x d ++ p)) 64).
  pose proof (Nat.mod_upper_bound (List.length (x d ++ p)) 64). lia.
Qed.

(** Writing [p] and then [q] is writing [p ++ q]. *)
Lemma Write_app d p q :
  (List.length (x d) < 64)%nat ->
  Write (Write d p) q = Write d (p ++ q).
Proof.
  intros Hx. rewrite (Write_absorb d p), (Write_absorb d (p ++ q)) by assumption.
  rewrite Write_absorb by apply absorb_buffer_short.
  unfold absorb. cbn [h x len].
  set (buf := x d ++ p). set (k1 := (List.length buf / 64)%nat).
  assert (Hbuf : x d ++ p ++ q = buf ++ q) by (unfold buf; rewrite app_assoc; reflexivity).
  rewrite Hbuf.
  assert (Hle : (64 * k1 <= List.length buf)%nat) by apply Nat.Div0.mul_div_le.
  assert (Hk : (List.length (buf ++ q) / 64 =
                k1 + List.length (skipn (64 * k1) buf ++ q) / 64)%nat).
  { rewrite !length_app, length_skipn.
    replace (List.length buf + List.length q)%nat
      with (k1 * 64 + (List.length buf - 64 * k1 + List.length q))%nat by lia.
    rewrite Nat.div_add_l by lia. reflexivity. }
  rewrite Hk. set (k2 := (List.length (skipn (64 * k1) buf ++ q) / 64)%nat).
  f_equal.
  - rewrite block_iter_split, (block_iter_prefix k1) by assumption.
    rewrite skipn_app. replace (64 * k1 - List.length buf)%nat with 0%nat by lia.
    reflexivity.
  - replace (64 * (k1 + k2))%nat with (64 * k2 + 64 * k1)%nat by lia.
    rewrite <- skipn_skipn. rewrite (skipn_app (64 * k1)).
    replace (64 * k1 - List.length buf)%nat with 0%nat by lia. reflexivity.
  - rewrite length_app, Nat2Z.inj_add.
    rewrite Zplus_mod_idemp_l. f_equal. lia.
Qed.

Lemma wf_New : wf New.
Proof. repeat split. cbn. lia. Qed.

Lemma block1_length hs p : List.length (block1 hs p) = 8%nat.
Proof. unfold block1. destruct (rounds _ _ _) as [[[[[[[? ?] ?] ?] ?] ?] ?] ?]. reflexivity. Qed.

Lemma block_iter_length k hs p :
  List.length hs = 8%nat -> List.length (block_iter k hs p) = 8%nat.
Proof.
  revert hs p. induction k as [|k IH]; intros hs p Hhs; [assumption|].
  cbn [block_iter]. apply IH, block1_length.
Qed.

Lemma wf_Write d p : wf d -> wf (Write d p).
Proof.
  intros (Hh & Hx & Hlen). rewrite Write_absorb by assumption.
  split; [|split].
  - apply block_iter_length, Hh.
  - apply absorb_buffer_short.
  - unfold absorb. cbn [x len]. rewrite length_skipn, length_app.
    rewrite Z.mod_mod_divide by (exists (2 ^ 58); reflexivity).
    rewrite <- Zplus_mod_idemp_l, Hlen, <- Nat2Z.inj_add.
    change 64 with (Z.of_nat 64). rewrite <- Nat2Z.inj_mod. f_equal.
    pose proof (Nat.div_mod_eq (List.length (x d) + List.length p) 64). lia.
Qed.

Lemma padding_length l :
  List.length (padding l) =
  Z.to_nat ((if l mod 64 <? 56 then 56 - l mod 64 else 64 + 56 - l mod 64) + 8).
Proof.
  unfold padding. rewrite length_app. cbn [List.length PutUint64 PutUint32 app].
  rewrite repeat_length.
  pose proof (Z.mod_pos_bound l 64 ltac:(lia)).
  destruct (l mod 64 <? 56) eqn:E; [apply Z.ltb_lt in E|apply Z.ltb_ge in E]; lia.
Qed.

(** After the padding the buffer is empty: the panic of [checkSum] is
    unreachable. *)
Lemma checkSum_buffer_empty d : wf d -> x (Write d (padding (len d))) = [].
Proof.
  intros (Hh & Hx & Hlen). rewrite Write_absorb by assumption.
  unfold absorb. cbn [x]. apply skipn_all2.
  rewrite length_app, padding_length, Hlen.
  set (n := List.length (x d)) in *.
  set (t := Z.to_nat ((if Z.of_nat n <? 56 then 56 - Z.of_nat n
                         else 64 + 56 - Z.of_nat n) + 8)).
  assert (Hn : ((n + t) mod 64 = 0)%nat).
  { unfold t. destruct (Z.of_nat n <? 56) eqn:E; [apply Z.ltb_lt in E|apply Z.ltb_ge in E].
    - replace (n + Z.to_nat (56 - Z.of_nat n + 8))%nat with (1 * 64)%nat by lia.
      apply Nat.Div0.mod_mul.
    - replace (n + Z.to_nat (64 + 56 - Z.of_nat n + 8))%nat with (2 * 64)%nat by lia.
      apply Nat.Div0.mod_mul. }
  match goal with |- (?a <= _)%nat => pose proof (Nat.div_mod_eq a 64) end. lia.
Qed.

Lemma checkSum_length d : wf d -> List.length (checkSum d) = Size.
Proof.
  intros Hd. unfold checkSum.
  destruct (wf_Write d (padding (len d)) Hd) as (Hh & _).
  destruct (h (Write d (padding (len d)))) as [|a0 [|a1 [|a2 [|a3 [|a4 [|a5 [|a6 [|a7 [|]]]]]]]]];
    try discriminate Hh. reflexivity.
Qed.

(** Writes in sequence, as one write. *)
Lemma fold_Write {A} (f : A -> list byte) (ls : list A) d p :
  (List.length (x d) < 64)%nat ->
  fold_left (fun hh l => Write hh (f l)) ls (Write d p) =
  Write d (p ++ List.concat (map f ls)).
Proof.
  intros Hx. revert p. induction ls as [|l ls IH]; intros p.
  - cbn. rewrite app_nil_r. reflexivity.
  - cbn [fold_left map List.concat]. rewrite Write_app by assumption.
    rewrite IH, <- app_assoc. reflexivity.
Qed.

End sha256_facts.


Lemma hex_length bs : String.length (hex bs) = (2 * List.length bs)%nat.
Proof. induction bs as [|b bs IH]; cbn [hex String.length List.length]; lia. Qed.

Lemma hex_lower bs : forallb is_lower_hex (list_ascii_of_string (hex bs)) = true.
Proof.
  induction bs as [|b bs IH]; [reflexivity|].
  cbn [hex list_ascii_of_string forallb]. rewrite IH.
  destruct b; reflexivity.
Qed.


Lemma substring_0_take n s :
  list_ascii_of_string (String.substring 0 n s) = firstn n (list_ascii_of_string s).
Proof.
  revert s. induction n as [|n IH]; intros [|c s]; cbn; try reflexivity.
  f_equal. apply IH.
Qed.

Lemma length_list_ascii s : List.length (list_ascii_of_string s) = String.length s.
Proof. induction s as [|c s IH]; cbn; congruence. Qed.

Lemma slice_to_Some s n :
  (n <= String.length s)%nat ->
  slice_to s n = Some (String.substring 0 n s) /\
  String.length (String.substring 0 n s) = n.
Proof.
  intros Hn. unfold slice_to.
  destruct (Nat.leb_spec n (String.length s)); [|lia]. split; [reflexivity|].
  rewrite <- length_list_ascii, substring_0_take, length_firstn, length_list_ascii. lia.
Qed.

Lemma forallb_take {A} (P : A -> bool) n l :
  forallb P l = true -> forallb P (firstn n l) = true.
Proof.
  revert l. induction n as [|n IH]; intros [|a l]; cbn; try reflexivity.
  intros [Ha Hl]%andb_prop. rewrite Ha. cbn. apply IH, Hl.
Qed.

Lemma list_byte_of_string_app s1 s2 :
  list_byte_of_string (s1 +:+ s2) = list_byte_of_string s1 ++ list_byte_of_string s2.
Proof.
  unfold list_byte_of_string.
  induction s1 as [|c s1 IH]; [reflexivity|].
  change (String c s1 +:+ s2) with (String c (s1 +:+ s2)).
  cbn [list_ascii_of_string map app]. f_equal. apply IH.
Qed.

Lemma concat_fingerprints_bytes stack :
  list_byte_of_string (concat_fingerprints stack) =
  List.concat (map (fun l => list_byte_of_string (layers.GetHash l)) stack).
Proof.
  unfold concat_fingerprints. induction stack as [|l stack IH]; [reflexivity|].
  cbn [map fold_right List.concat]. rewrite list_byte_of_string_app, IH. reflexivity.
Qed.

Import sha256_facts.

Lemma running_hash_concat base selected :
  fold_left (fun h l => sha256.Write h (list_byte_of_string (layers.GetHash l)))
            selected (sha256.Write sha256.New (list_byte_of_string (layers.GetHash base)))
  = sha256.Write sha256.New (list_byte_of_string (concat_fingerprints (base :: selected))).
Proof.
  rewrite fold_Write by (cbn; lia).
  rewrite concat_fingerprints_bytes. reflexivity.
Qed.

(** C1: for every stack the tag is computed (the slice does not panic) and
    equals the first 12 characters of the lowercase hexadecimal SHA-256
    digest of the fingerprints of the layers concatenated in stack order,
    base first, as fed to one running hash; it has exactly 12 characters,
    all of them hexadecimal digits. *)
Theorem calculateTag_running_hash base selected :
  exists tag,
    docker.calculateTag base selected = Some tag /\
    tag = String.substring 0 12
            (hex (sha256.Sum256
                    (list_byte_of_string (concat_fingerprints (base :: selected))))) /\
    String.length tag = 12%nat /\
    forallb is_lower_hex (list_ascii_of_string tag) = true.
Proof.
  unfold docker.calculateTag. rewrite running_hash_concat.
  set (d := sha256.Write sha256.New _).
  assert (Hlen : String.length (hex (sha256.Sum d)) = 64%nat).
  { rewrite hex_length. unfold sha256.Sum.
    rewrite checkSum_length by apply wf_Write, wf_New. reflexivity. }
  destruct (slice_to_Some (hex (sha256.Sum d)) 12) as [Hs Hl]; [lia|].
  eexists. split; [exact Hs|]. split; [reflexivity|]. split; [exact Hl|].
  rewrite substring_0_take. apply forallb_take, hex_lower.
Qed.

(** ** Dockerfile text and port specs *)

Local Close Scope Z_scope.

Lemma append_cons c (s1 s2 : string) : String c s1 +:+ s2 = String c (s1 +:+ s2).
Proof. reflexivity. Qed.

Lemma append_nil_r (s : string) : s +:+ EmptyString = s.
Proof. induction s as [|c s IH]; [reflexivity|]. rewrite append_cons, IH. reflexivity. Qed.

Lemma append_assoc (s1 s2 s3 : string) : (s1 +:+ s2) +:+ s3 = s1 +:+ (s2 +:+ s3).
Proof. induction s1 as [|c s1 IH]; [reflexivity|]. rewrite !append_cons, IH. reflexivity. Qed.

Lemma lines_app cmds1 cmds2 : lines (cmds1 ++ cmds2) = lines cmds1 +:+ lines cmds2.
Proof.
  induction cmds1 as [|c cmds1 IH]; [reflexivity|].
  cbn [app lines fold_right]. fold (lines (cmds1 ++ cmds2)). fold (lines cmds1).
  rewrite IH, !append_assoc. reflexivity.
Qed.

Lemma write_commands cmds sb :
  fold_left (fun sb cmd => docker.WriteString sb (cmd +:+ newline)) cmds sb =
  sb +:+ lines cmds.
Proof.
  revert sb. induction cmds as [|c cmds IH]; intros sb.
  - cbn. rewrite append_nil_r. reflexivity.
  - cbn [fold_left lines fold_right]. rewrite IH. unfold docker.WriteString.
    rewrite !append_assoc. reflexivity.
Qed.

Lemma write_layers ls sb :
  fold_left (fun sb l =>
    fold_left (fun sb cmd => docker.WriteString sb (cmd +:+ newline))
              (layers.GetCommands l) sb) ls sb =
  sb +:+ lines (List.concat (map layers.GetCommands ls)).
Proof.
  revert sb. induction ls as [|l ls IH]; intros sb.
  - cbn. rewrite append_nil_r. reflexivity.
  - cbn [fold_left map List.concat]. rewrite IH, write_commands, lines_app, append_assoc.
    reflexivity.
Qed.

(** C8: the Dockerfile text is the concatenation, in stack order (base
    first, then each selected layer in the given order), of every
    instruction of every layer, each followed by exactly one newline;
    nothing is reordered, dropped, merged or checked, and the text depends
    on the layer sequence only. *)
Theorem generateDockerfile_lines base selected :
  docker.generateDockerfile base selected =
  lines (List.concat (map layers.GetCommands (base :: selected))).
Proof.
  unfold docker.generateDockerfile.
  rewrite write_layers, write_commands. cbn [map List.concat].
  rewrite lines_app. reflexivity.
Qed.

(** Port specs *)

Lemma Split_length s sep : List.length (Split s sep) = S (count_sep sep s).
Proof.
  induction s as [|c s IH]; [reflexivity|].
  cbn [Split count_sep]. destruct (Ascii.eqb c sep).
  - cbn [List.length]. rewrite IH. reflexivity.
  - destruct (Split s sep) as [|part parts]; [discriminate IH|].
    cbn [List.length] in *. lia.
Qed.

Lemma Split_head s sep : exists parts, Split s sep = before_sep sep s :: parts.
Proof.
  induction s as [|c s [parts IH]]; [eexists; reflexivity|].
  cbn [Split before_sep]. destruct (Ascii.eqb c sep).
  - eexists; reflexivity.
  - rewrite IH. eexists; reflexivity.
Qed.

Lemma Split_none s sep : count_sep sep s = 0 -> Split s sep = [s].
Proof.
  induction s as [|c s IH]; [reflexivity|].
  cbn [Split count_sep]. destruct (Ascii.eqb c sep); [discriminate|].
  intros H. rewrite IH by exact H. reflexivity.
Qed.

Lemma Split_one s sep :
  count_sep sep s = 1 -> Split s sep = [before_sep sep s; after_sep sep s].
Proof.
  induction s as [|c s IH]; [discriminate|].
  cbn [Split count_sep before_sep after_sep]. destruct (Ascii.eqb c sep).
  - intros H. rewrite Split_none by lia. reflexivity.
  - intros H. rewrite IH by exact H. reflexivity.
Qed.

Lemma portEntry_one_colon exposed bindings p :
  count_sep ":" p = 1 ->
  docker.portEntry (exposed, bindings) p =
  Some ({[with_proto (after_sep ":" p)]} ∪ exposed,
        if String.eqb (before_sep ":" p) ""
        then bindings
        else <[with_proto (after_sep ":" p) :=
                 [mkPortBinding "0.0.0.0" (before_sep ":" p)]]> bindings).
Proof.
  intros H. unfold docker.portEntry. rewrite (Split_one _ _ H).
  cbn [List.length Nat.eqb]. unfold with_proto.
  destruct (Contains _ "/"), (String.eqb _ ""); reflexivity.
Qed.

Lemma portEntry_other exposed bindings p :
  count_sep ":" p <> 1 ->
  docker.portEntry (exposed, bindings) p =
  Some ({[with_proto (before_sep ":" p)]} ∪ exposed, bindings).
Proof.
  intros H. unfold docker.portEntry.
  pose proof (Split_length p ":") as Hlen.
  destruct (Split_head p ":") as [parts Hparts]. rewrite Hparts in *.
  destruct (Nat.eqb_spec (List.length (before_sep ":" p :: parts)) 2) as [E|E];
    [lia|].
  unfold with_proto. destruct (Contains _ "/"); reflexivity.
Qed.

Lemma before_sep_none s sep : count_sep sep s = 0 -> before_sep sep s = s.
Proof.
  induction s as [|c s IH]; [reflexivity|].
  cbn [count_sep before_sep]. destruct (Ascii.eqb c sep); [discriminate|].
  intros H. rewrite IH by exact H. reflexivity.
Qed.

Lemma before_sep_app pre rest sep :
  count_sep sep pre = 0 ->
  before_sep sep (pre +:+ String sep rest) = pre.
Proof.
  induction pre as [|c pre IH].
  - intros _. change (EmptyString +:+ String sep rest) with (String sep rest).
    cbn [before_sep]. rewrite Ascii.eqb_refl. reflexivity.
  - cbn [count_sep]. rewrite append_cons. cbn [before_sep].
    destruct (Ascii.eqb c sep); [discriminate|].
    intros H. rewrite IH by exact H. reflexivity.
Qed.

Lemma after_sep_app pre rest sep :
  count_sep sep pre = 0 ->
  after_sep sep (pre +:+ String sep rest) = rest.
Proof.
  induction pre as [|c pre IH].
  - intros _. change (EmptyString +:+ String sep rest) with (String sep rest).
    cbn [after_sep]. rewrite Ascii.eqb_refl. reflexivity.
  - cbn [count_sep]. rewrite append_cons. cbn [after_sep].
    destruct (Ascii.eqb c sep); [discriminate|].
    intros H. rewrite IH by exact H. reflexivity.
Qed.

Lemma count_sep_app s1 s2 sep :
  count_sep sep (s1 +:+ s2) = count_sep sep s1 + count_sep sep s2.
Proof.
  induction s1 as [|c s1 IH]; [reflexivity|].
  rewrite append_cons. cbn [count_sep]. rewrite IH. lia.
Qed.


(** ** The build and run flow *)

Section Adds.
Context {W : Type} (P : event -> Prop).

Lemma adds_ret {A} (a : A) : adds_only (W:=W) P (ret a).
Proof. intros s. exists []. rewrite app_nil_r. split; [reflexivity|constructor]. Qed.

Lemma adds_fail {A} e : adds_only (W:=W) (A:=A) P (fail e).
Proof. intros s. exists []. rewrite app_nil_r. split; [reflexivity|constructor]. Qed.

Lemma adds_panic {A} : adds_only (W:=W) (A:=A) P panic.
Proof. intros s. exists []. rewrite app_nil_r. split; [reflexivity|constructor]. Qed.

Lemma adds_tell ev : P ev -> adds_only (W:=W) P (tell ev).
Proof. intros H s. exists [ev]. split; [reflexivity|repeat constructor; exact H]. Qed.

Lemma adds_call {R} ev (f : W -> R * W) : P ev -> adds_only P (call ev f).
Proof.
    intros H s. exists [ev]. unfold call. destruct (f s.1).
    split; [reflexivity|repeat constructor; exact H].
Qed.

Lemma adds_bind {A B} (c : M W A) (k : A -> M W B) :
    adds_only P c -> (forall a, adds_only P (k a)) -> adds_only P (bind c k).
Proof.
    intros Hc Hk s. unfold bind. destruct (Hc s) as (evs & E & F).
    destruct (c s) as [[a|e|] s'] eqn:Ec; cbn [snd] in E.
    - destruct (Hk a s') as (evs' & E' & F'). exists (evs ++ evs').
      rewrite E', E, app_assoc. split; [reflexivity|apply Forall_app; split; assumption].
    - exists evs. split; assumption.
    - exists evs. split; assumption.
Qed.
End Adds.

Ltac adds_step :=
  first
    [ apply adds_ret | apply adds_fail | apply adds_panic
    | apply adds_tell; reflexivity | apply adds_call; reflexivity
    | apply adds_bind; [|intros ?]
    | match goal with
      | |- adds_only _ (match ?t with _ => _ end) => destruct t
      | |- adds_only _ (if ?t then _ else _) => destruct t
      end ].

Lemma runContainer_no_build {W} (cli : Client W) imageName volumes ports :
  adds_only (fun ev => is_build ev = false)
            (docker.runContainer cli imageName volumes ports).
Proof. unfold docker.runContainer. repeat adds_step. Qed.

(** The merged volume and port lists. *)
Lemma merge_lists (selected : list layers.Layer) vs ps :
  fold_left (fun '(volumes, ports) l =>
               (volumes ++ layers.GetVolumes l, ports ++ layers.GetPorts l))
            selected (vs, ps) =
  (vs ++ List.concat (map layers.GetVolumes selected),
   ps ++ List.concat (map layers.GetPorts selected)).
Proof.
  revert vs ps. induction selected as [|l ls IH]; intros vs ps.
  - cbn. rewrite !app_nil_r. reflexivity.
  - cbn [fold_left map List.concat]. rewrite IH, <- !app_assoc. reflexivity.
Qed.

Lemma BuildAndRun_unfold {W} (cli : Client W) base selected tag :
  docker.calculateTag base selected = Some tag ->
  docker.BuildAndRun cli base selected =
  (exists_ <- docker.imageExists cli ("aig-image:" +:+ tag) ;;
   (if negb exists_
    then tell (Printf ("Building image " +:+ ("aig-image:" +:+ tag) +:+ "..." +:+ newline)) ;;;
         docker.buildImage cli (docker.generateDockerfile base selected) ("aig-image:" +:+ tag)
    else tell (Printf ("Using cached image " +:+ ("aig-image:" +:+ tag) +:+ newline))) ;;;
   docker.runContainer cli ("aig-image:" +:+ tag)
     (merged_volumes (base :: selected)) (merged_ports (base :: selected))).
Proof.
  intros Htag. unfold docker.BuildAndRun. rewrite Htag.
  cbn [app]. rewrite merge_lists. reflexivity.
Qed.

(** C2: when the image-existence query for the computed tag returns true,
    [BuildAndRun] goes on with [runContainer] right after the query (and
    the line it prints), and no event of the whole run is a call to the
    build of an image. *)
Theorem cache_hit_skips_build {W} (cli : Client W) base selected tag w tr w1 tr1 :
  docker.calculateTag base selected = Some tag ->
  docker.imageExists cli ("aig-image:" +:+ tag) (w, tr) = (Returned true, (w1, tr1)) ->
  docker.BuildAndRun cli base selected (w, tr) =
    docker.runContainer cli ("aig-image:" +:+ tag)
      (merged_volumes (base :: selected)) (merged_ports (base :: selected))
      (w1, tr1 ++ [Printf ("Using cached image " +:+ ("aig-image:" +:+ tag) +:+ newline)]) /\
  exists evs,
    (docker.BuildAndRun cli base selected (w, tr)).2.2 = tr ++ evs /\
    Forall (fun ev => is_build ev = false) evs.
Proof.
  intros Htag Hex.
  assert (Hrun : docker.BuildAndRun cli base selected (w, tr) =
    docker.runContainer cli ("aig-image:" +:+ tag)
      (merged_volumes (base :: selected)) (merged_ports (base :: selected))
      (w1, tr1 ++ [Printf ("Using cached image " +:+ ("aig-image:" +:+ tag) +:+ newline)])).
  { rewrite (BuildAndRun_unfold cli base selected tag Htag).
    unfold bind at 1. rewrite Hex. reflexivity. }
  split; [exact Hrun|]. rewrite Hrun.
  destruct (runContainer_no_build cli ("aig-image:" +:+ tag)
    (merged_volumes (base :: selected)) (merged_ports (base :: selected))
    (w1, tr1 ++ [Printf ("Using cached image " +:+ ("aig-image:" +:+ tag) +:+ newline)]))
    as (evs & E & F).
  rewrite E. cbn [snd].
  (* the events of the query itself *)
  unfold docker.imageExists, bind, call in Hex. cbn [fst snd] in Hex.
  destruct (ImageInspectWithRaw cli ("aig-image:" +:+ tag) w) as [[e|] w'].
  - destruct (IsErrNotFound e); discriminate Hex.
  - injection Hex as <- <-.
    exists ([CallImageInspect ("aig-image:" +:+ tag)] ++
       [Printf ("Using cached image " +:+ ("aig-image:" +:+ tag) +:+ newline)] ++ evs).
    split; [rewrite <- !app_assoc; reflexivity|].
    repeat (constructor; [reflexivity|]). exact F.
Qed.

Lemma adds_weaken {W A} (P Q : event -> Prop) (c : M W A) :
  (forall ev, P ev -> Q ev) -> adds_only P c -> adds_only Q c.
Proof.
  intros HPQ Hc s. destruct (Hc s) as (evs & E & F). exists evs.
  split; [exact E|]. eapply Forall_impl; eassumption.
Qed.

Lemma buildImage_then_starts {W A} (cli : Client W) dockerfile imageName (k : M W A) :
  adds_only (fun _ => True) k ->
  forall s, exists evs,
    ((docker.buildImage cli dockerfile imageName ;;; k) s).2.2 =
    s.2 ++ [CallImageBuild (build_options dockerfile imageName)] ++ evs.
Proof.
  intros Hk s.
  assert (Hrest : forall resp : BuildBody + error,
    adds_only (fun _ => True)
      (match resp with
       | inr err => fail err
       | inl body =>
         tell (CopyBuildOutput (bodyOutput body)) ;;;
         match bodyError body with
         | Some err => fail err
         | None => ret tt
         end
       end ;;; k)).
  { intros resp. apply adds_bind; [|intros ?; exact Hk].
    destruct resp as [body|err]; [|apply adds_fail].
    apply adds_bind; [apply adds_tell; exact I|intros _].
    destruct (bodyError body); [apply adds_fail|apply adds_ret]. }
  unfold docker.buildImage. fold (build_options dockerfile imageName).
  unfold bind at 1 2. unfold call.
  destruct (ImageBuild cli _ _ s.1) as [resp w'].
  specialize (Hrest resp (w', s.2 ++ [CallImageBuild (build_options dockerfile imageName)])).
  destruct Hrest as (evs & E & _). exists evs.
  cbn [snd] in E. rewrite <- app_assoc in E. rewrite <- E.
  unfold bind. reflexivity.
Qed.

(** C7: when the inspection of the image fails with a not-found error,
    [imageExists] returns false and no error, and the run goes on to the
    build: its next events are the line it prints and the call to the
    build of the image.  When it fails with any other error, [imageExists]
    returns that error, and so does [BuildAndRun], the inspection being the
    only event of the run: no build, create or start is attempted. *)
Theorem cache_query_outcomes {W} (cli : Client W) base selected tag w tr e w1 :
  docker.calculateTag base selected = Some tag ->
  ImageInspectWithRaw cli ("aig-image:" +:+ tag) w = (Some e, w1) ->
  let imageName := "aig-image:" +:+ tag in
  let dockerfile := docker.generateDockerfile base selected in
  if IsErrNotFound e then
    docker.imageExists cli imageName (w, tr) =
      (Returned false, (w1, tr ++ [CallImageInspect imageName])) /\
    exists evs,
      (docker.BuildAndRun cli base selected (w, tr)).2.2 =
      tr ++ [CallImageInspect imageName;
             Printf ("Building image " +:+ imageName +:+ "..." +:+ newline);
             CallImageBuild (build_options dockerfile imageName)] ++ evs
  else
    docker.imageExists cli imageName (w, tr) =
      (Failed e, (w1, tr ++ [CallImageInspect imageName])) /\
    docker.BuildAndRun cli base selected (w, tr) =
      (Failed e, (w1, tr ++ [CallImageInspect imageName])).
Proof.
  intros Htag Hq imageName dockerfile.
  assert (Hex : docker.imageExists cli imageName (w, tr) =
    (if IsErrNotFound e then Returned false else Failed e,
     (w1, tr ++ [CallImageInspect imageName]))).
  { unfold docker.imageExists, bind, call. cbn [fst snd].
    fold imageName in Hq. rewrite Hq. destruct (IsErrNotFound e); reflexivity. }
  rewrite (BuildAndRun_unfold cli base selected tag Htag). fold imageName dockerfile.
  destruct (IsErrNotFound e).
  - split; [exact Hex|].
    unfold bind at 1. rewrite Hex. cbn [negb].
    unfold bind at 1 2. unfold tell at 1. cbn [fst snd].
    destruct (buildImage_then_starts cli dockerfile imageName
      (docker.runContainer cli imageName
         (merged_volumes (base :: selected)) (merged_ports (base :: selected)))
      (adds_weaken _ _ _ (fun _ _ => I) (runContainer_no_build cli _ _ _))
      (w1, (tr ++ [CallImageInspect imageName]) ++
           [Printf ("Building image " +:+ imageName +:+ "..." +:+ newline)]))
      as (evs & E).
    exists evs. cbn [snd] in E.
    etransitivity; [exact E|]. rewrite <- !app_assoc. reflexivity.
  - split; [exact Hex|]. unfold bind at 1. rewrite Hex. reflexivity.
Qed.

(** ** Stack assembly *)

Section Assembly.
Context {W : Type}.
Variable registry : gmap string layers.Layer.

Lemma lookup_present key l (s : W * list event) :
    registry !! key = Some l ->
    cli.lookup registry key s = (Returned l, (s.1, s.2 ++ [RegistryGet key])).
Proof.
    intros H. unfold cli.lookup, layers.Get, bind, tell. rewrite H. reflexivity.
Qed.

Lemma lookup_absent key (s : W * list event) :
    registry !! key = None ->
    cli.lookup registry key s =
    (Failed (not_found key), (s.1, s.2 ++ [RegistryGet key])).
Proof.
    intros H. unfold cli.lookup, layers.Get, bind, tell. rewrite H. reflexivity.
Qed.

Lemma selectLayers_resolved names : forall acc (w : W) tr,
    Forall (fun name => is_Some (registry !! TrimSpace name)) names ->
    exists ls,
      cli.selectLayers registry names acc (w, tr) =
      (Returned (acc ++ ls), (w, tr ++ lookups names)).
Proof.
    induction names as [|name names IH]; intros acc w tr Hall.
    - exists []. cbn. rewrite !app_nil_r. reflexivity.
    - inversion Hall as [|? ? [l Hl] Hrest]; subst.
      destruct (IH (acc ++ [l]) w (tr ++ [RegistryGet (TrimSpace name)]) Hrest)
        as (ls & E).
      exists (l :: ls). cbn [cli.selectLayers]. unfold bind at 1.
      rewrite (lookup_present _ l) by exact Hl. cbn [fst snd].
      rewrite E, <- !app_assoc. reflexivity.
Qed.

Lemma selectLayers_unresolved ns1 name ns2 : forall acc (w : W) tr,
    Forall (fun name => is_Some (registry !! TrimSpace name)) ns1 ->
    registry !! TrimSpace name = None ->
    cli.selectLayers registry (ns1 ++ name :: ns2) acc (w, tr) =
    (Failed (not_found (TrimSpace name)), (w, tr ++ lookups (ns1 ++ [name]))).
Proof.
    induction ns1 as [|n ns1 IH]; intros acc w tr Hall Hname.
    - cbn [app cli.selectLayers]. unfold bind at 1.
      rewrite lookup_absent by exact Hname. reflexivity.
    - inversion Hall as [|? ? [l Hl] Hrest]; subst.
      cbn [app cli.selectLayers]. unfold bind at 1.
      rewrite (lookup_present _ l) by exact Hl. cbn [fst snd].
      rewrite IH by assumption. cbn [lookups map app].
      rewrite <- !app_assoc. reflexivity.
Qed.

  (** A list with an unresolved name has a first one. *)
Lemma first_unresolved (names : list string) :
    (exists name, In name names /\ registry !! TrimSpace name = None) ->
    exists ns1 name ns2,
      names = ns1 ++ name :: ns2 /\
      Forall (fun name => is_Some (registry !! TrimSpace name)) ns1 /\
      registry !! TrimSpace name = None.
Proof.
    induction names as [|n names IH]; intros (name & Hin & Hname).
    - destruct Hin.
    - destruct (registry !! TrimSpace n) as [l|] eqn:Hn.
      + destruct Hin as [->|Hin]; [congruence|].
        destruct IH as (ns1 & m & ns2 & -> & Hall & Hm); [eauto|].
        exists (n :: ns1), m, ns2. repeat split; [|exact Hm].
        constructor; [rewrite Hn; eauto|exact Hall].
      + exists [], n, names. repeat split; [constructor|exact Hn].
Qed.

(** C6: when some requested layer name is absent from the registry, there
    is a first such name; stack assembly fails there with the not-found
    error of that name, and so does the command: no stack is returned, the
    only events are the lookups of the names up to the failing one, so that
    no later name is looked up and the builder makes no call. *)
Theorem unknown_layer_stops_assembly (client : Client W) fl w tr :
    (exists name, In name (cli.layerNames fl) /\ registry !! TrimSpace name = None) ->
    exists ns1 name ns2,
      cli.layerNames fl = ns1 ++ name :: ns2 /\
      Forall (fun name => is_Some (registry !! TrimSpace name)) ns1 /\
      registry !! TrimSpace name = None /\
      cli.assembleStack registry fl (w, tr) =
        (Failed (not_found (TrimSpace name)), (w, tr ++ lookups (ns1 ++ [name]))) /\
      cli.RunE (inl client) registry fl (w, tr) =
        (Failed (not_found (TrimSpace name)), (w, tr ++ lookups (ns1 ++ [name]))).
Proof.
    intros Hex. destruct (first_unresolved _ Hex) as (ns1 & name & ns2 & E & Hall & Hname).
    exists ns1, name, ns2. repeat split; try assumption.
    - unfold cli.assembleStack, bind. rewrite E.
      rewrite selectLayers_unresolved by assumption. reflexivity.
    - unfold cli.RunE, cli.assembleStack, bind. rewrite E.
      rewrite selectLayers_unresolved by assumption. reflexivity.
Qed.

(** X16: when every layer name resolves and the top layer that is named
    does not, the command fails with the not-found error of the top name,
    as given, after the lookups of the layer names and of the top name,
    and the builder makes no call. *)
Lemma unknown_top_layer_stops_assembly (client : Client W) fl w tr :
    Forall (fun name => is_Some (registry !! TrimSpace name)) (cli.layerNames fl) ->
    cli.topLayerName fl <> EmptyString ->
    registry !! cli.topLayerName fl = None ->
    cli.RunE (inl client) registry fl (w, tr) =
      (Failed (not_found (cli.topLayerName fl)),
       (w, tr ++ lookups (cli.layerNames fl) ++ [RegistryGet (cli.topLayerName fl)])).
Proof.
    intros Hall Hne Htop. unfold cli.RunE, cli.assembleStack.
    destruct (selectLayers_resolved _ [] w tr Hall) as (ls & E).
    unfold bind at 1 2 3. rewrite E.
    apply String.eqb_neq in Hne. rewrite Hne. cbn [negb].
    rewrite lookup_absent by exact Htop. cbn [fst snd].
    rewrite <- app_assoc. reflexivity.
Qed.
End Assembly.

(** Hexadecimal text determines the bytes. *)
Lemma unhex_byte_hex b :
  unhex_byte (hexdigit (byte_to_Z b / 16)) (hexdigit (byte_to_Z b mod 16)) = b.
Proof. destruct b; reflexivity. Qed.

Lemma hex_inj bs1 bs2 : hex bs1 = hex bs2 -> bs1 = bs2.
Proof.
  revert bs2. induction bs1 as [|b1 bs1 IH]; intros [|b2 bs2] H;
    try reflexivity; try discriminate H.
  cbn [hex] in H. injection H as H1 H2 H3.
  f_equal; [|apply IH, H3].
  rewrite <- (unhex_byte_hex b1), <- (unhex_byte_hex b2), H1, H2. reflexivity.
Qed.

(** ** Fingerprints *)

Lemma GetHash_content l :
  layers.GetHash l = hex (sha256.Sum256 (list_byte_of_string (content l))).
Proof. destruct l; reflexivity. Qed.

Lemma GetHash_length l : String.length (layers.GetHash l) = 64.
Proof.
  rewrite GetHash_content, hex_length. unfold sha256.Sum256.
  rewrite sha256_facts.checkSum_length
    by apply sha256_facts.wf_Write, sha256_facts.wf_New.
  reflexivity.
Qed.

Lemma append_inj_same_length (a b c d : string) :
  String.length a = String.length b -> a +:+ c = b +:+ d -> a = b /\ c = d.
Proof.
  revert b. induction a as [|x a IH]; intros [|y b] Hlen H; try discriminate Hlen.
  - split; [reflexivity|exact H].
  - rewrite !append_cons in H. injection H as -> H.
    injection Hlen as Hlen. destruct (IH b Hlen H) as [-> ->]. split; reflexivity.
Qed.

(** Swapping two layers with distinct fingerprints changes the bytes fed to
    the running hash of the tag. *)
Lemma swap_changes_hash_input base a b :
  layers.GetHash a <> layers.GetHash b ->
  concat_fingerprints [base; a; b] <> concat_fingerprints [base; b; a].
Proof.
  intros Hne H. unfold concat_fingerprints in H. cbn [map fold_right] in H.
  apply append_inj_same_length in H as [_ H]; [|reflexivity].
  apply append_inj_same_length in H as [H _];
    [|rewrite !GetHash_length; reflexivity].
  exact (Hne H).
Qed.

Lemma calculateTag_fingerprints base selected selected' :
  map layers.GetHash selected = map layers.GetHash selected' ->
  docker.calculateTag base selected = docker.calculateTag base selected'.
Proof.
  intros H. unfold docker.calculateTag.
  rewrite !running_hash_concat. unfold concat_fingerprints.
  cbn [map]. rewrite H. reflexivity.
Qed.

(** C3, as stated, fails: two Custom layers that differ only in their name
    have different fingerprints. *)
Lemma custom_fingerprint_depends_on_name :
  let l1 := layers.Custom (layers.CustomLayer.mk "a" [] [] []) in
  let l2 := layers.Custom (layers.CustomLayer.mk "b" [] [] []) in
  same_content l1 l2 /\ layers.GetHash l1 <> layers.GetHash l2.
Proof.
  intros l1 l2. split; [repeat split|].
  assert (E1 : layers.GetHash l1 =
    "ca978112ca1bbdcafac231b39a23dc4da786eff8147c4e72b9807785afee48bb")
    by (vm_compute; reflexivity).
  assert (E2 : layers.GetHash l2 =
    "3e23e8160039594a33894f6564e1b1348bbd7a0088d42c4acb73eeaed59c009d")
    by (vm_compute; reflexivity).
  rewrite E1, E2. discriminate.
Qed.

(** C3, amended: for the variants Base, Dependency and Top the fingerprint
    is a function of the content fields only, never of the name: two such
    layers of the same variant that agree on every field but the name have
    equal fingerprints.  The fingerprint of a Custom layer is the digest of
    a text that starts with its name. *)
Theorem fingerprint_ignores_name l1 l2 :
  same_content l1 l2 -> name_free l1 = true ->
  layers.GetHash l1 = layers.GetHash l2.
Proof.
  destruct l1 as [a|a|a|a|a], l2 as [b|b|b|b|b]; cbn [same_content name_free];
    try contradiction; try discriminate.
  - intros -> _. reflexivity.
  - intros (HP & HV & HPo) _. cbn [layers.GetHash].
    unfold layers.DependencyLayer.GetHash. rewrite HP, HV, HPo. reflexivity.
  - intros (HU & HP & HV & HPo) _. cbn [layers.GetHash].
    unfold layers.TopLayer.GetHash. rewrite HU, HP, HV, HPo. reflexivity.
Qed.

Lemma fingerprint_ignores_name_witness :
  let l1 := layers.Dependency (layers.DependencyLayer.mk "nginx" ["nginx"] [] ["80"]) in
  let l2 := layers.Dependency (layers.DependencyLayer.mk "web" ["nginx"] [] ["80"]) in
  same_content l1 l2 /\ name_free l1 = true /\
  layers.GetHash l1 = layers.GetHash l2.
Proof.
  intros l1 l2.
  assert (Hs : same_content l1 l2) by (repeat split).
  assert (Hn : name_free l1 = true) by reflexivity.
  split; [exact Hs|]. split; [exact Hn|].
  exact (fingerprint_ignores_name l1 l2 Hs Hn).
Defined.

(** C4: the code breaks the claim.  Changing the instruction list of a
    Custom layer from [RUN x; yRUN z] to [RUN xy; RUN z] changes the list
    and the generated Dockerfile, while the fingerprint of the layer and
    the tag of the stack stay the same: [CustomLayer.GetHash] joins the
    instructions with no separator, so that only their concatenation is
    hashed. *)
Lemma custom_fingerprint_misses_change :
  let base := layers.Base (layers.BaseLayer.mk "ubuntu:22.04" [] []) in
  let l1 := layers.Custom (layers.CustomLayer.mk "setup" ["RUN x"; "yRUN z"] [] []) in
  let l2 := layers.Custom (layers.CustomLayer.mk "setup" ["RUN xy"; "RUN z"] [] []) in
  layers.GetCommands l1 <> layers.GetCommands l2 /\
  layers.GetVolumes l1 = layers.GetVolumes l2 /\
  layers.GetPorts l1 = layers.GetPorts l2 /\
  docker.generateDockerfile base [l1] <> docker.generateDockerfile base [l2] /\
  layers.GetHash l1 = layers.GetHash l2 /\
  docker.calculateTag base [l1] = docker.calculateTag base [l2].
Proof.
  intros base l1 l2.
  assert (H : layers.GetHash l1 = layers.GetHash l2).
  { rewrite !GetHash_content.
    apply (f_equal (fun s => hex (sha256.Sum256 (list_byte_of_string s)))).
    vm_compute. reflexivity. }
  split; [intros E; discriminate E|].
  split; [reflexivity|]. split; [reflexivity|].
  split; [intros E; vm_compute in E; discriminate E|].
  split; [exact H|].
  apply calculateTag_fingerprints. cbn [map]. rewrite H. reflexivity.
Qed.

(** The sibling variants join their lists with a comma: the same change of
    the package list of a Dependency layer changes its fingerprint. *)
Lemma dependency_fingerprint_sees_change :
  let l1 := layers.Dependency (layers.DependencyLayer.mk "setup" ["x"; "yz"] [] []) in
  let l2 := layers.Dependency (layers.DependencyLayer.mk "setup" ["xy"; "z"] [] []) in
  content l1 = "x,yz" /\ content l2 = "xy,z" /\
  layers.GetHash l1 <> layers.GetHash l2.
Proof.
  intros l1 l2. split; [reflexivity|]. split; [reflexivity|].
  apply String.eqb_neq. vm_compute. reflexivity.
Qed.

(** ** Port specs, by the number of colons *)

Lemma split_at_first_sep sep s :
  1 <= count_sep sep s ->
  s = before_sep sep s +:+ String sep (after_sep sep s) /\
  count_sep sep (before_sep sep s) = 0.
Proof.
  induction s as [|c s IH]; cbn [count_sep before_sep after_sep]; [lia|].
  destruct (Ascii.eqb_spec c sep) as [->|Hne].
  - intros _. split; reflexivity.
  - intros H. destruct (IH H) as [E Hc]. rewrite append_cons, <- E.
    cbn [count_sep]. destruct (Ascii.eqb_spec c sep); [contradiction|].
    split; [reflexivity|exact Hc].
Qed.

(** C5, as stated, fails: a spec with one colon and nothing before it
    exposes the container port and creates no host binding. *)
Lemma one_colon_without_host_binds_nothing :
  count_sep ":" ":80" = 1 /\
  docker.portEntry (∅, ∅) ":80" = Some ({["80/tcp"]}, ∅).
Proof. split; [reflexivity|]. vm_compute. reflexivity. Qed.

(** C5, amended: a spec [host:container] with one colon exposes the
    container port, with [/tcp] appended when the container part contains
    no [/], and creates a host binding from the host part to it when the
    host part is not empty, and none when it is empty; a spec with no colon
    and no [/] exposes the spec followed by [/tcp] and creates no binding; a
    spec with no colon and a protocol exposes the spec unchanged and
    creates no binding. *)
Theorem port_spec_parsing exposed bindings :
  (forall host cont,
     count_sep ":" host = 0 -> count_sep ":" cont = 0 ->
     docker.portEntry (exposed, bindings) (host +:+ ":" +:+ cont) =
     Some ({[with_proto cont]} ∪ exposed,
           if String.eqb host ""
           then bindings
           else <[with_proto cont := [mkPortBinding "0.0.0.0" host]]> bindings)) /\
  (forall p,
     count_sep ":" p = 0 -> Contains p "/" = false ->
     docker.portEntry (exposed, bindings) p =
     Some ({[p +:+ "/tcp"]} ∪ exposed, bindings)) /\
  (forall p,
     count_sep ":" p = 0 -> Contains p "/" = true ->
     docker.portEntry (exposed, bindings) p = Some ({[p]} ∪ exposed, bindings)).
Proof.
  split; [|split].
  - intros host cont Hh Hc.
    change (host +:+ ":" +:+ cont) with (host +:+ String ":" cont).
    rewrite portEntry_one_colon
      by (rewrite count_sep_app; cbn [count_sep Ascii.eqb Bool.eqb]; lia).
    rewrite before_sep_app, after_sep_app by exact Hh. reflexivity.
  - intros p Hp Hs. rewrite portEntry_other by lia.
    rewrite before_sep_none by exact Hp. unfold with_proto. rewrite Hs. reflexivity.
  - intros p Hp Hs. rewrite portEntry_other by lia.
    rewrite before_sep_none by exact Hp. unfold with_proto. rewrite Hs. reflexivity.
Qed.

Lemma port_spec_parsing_witness :
  docker.portEntry (∅, ∅) "8080:80" =
    Some ({["80/tcp"]}, {["80/tcp" := [mkPortBinding "0.0.0.0" "8080"]]}) /\
  docker.portEntry (∅, ∅) "80" = Some ({["80/tcp"]}, ∅) /\
  docker.portEntry (∅, ∅) "53/udp" = Some ({["53/udp"]}, ∅).
Proof.
  destruct (port_spec_parsing ∅ ∅) as (H1 & H2 & H3).
  split; [|split].
  - etransitivity; [exact (H1 "8080" "80" eq_refl eq_refl)|]. vm_compute. reflexivity.
  - etransitivity; [exact (H2 "80" eq_refl eq_refl)|]. vm_compute. reflexivity.
  - etransitivity; [exact (H3 "53/udp" eq_refl eq_refl)|]. vm_compute. reflexivity.
Defined.

(** C10: a port spec with two or more colons is [pre:rest] with no colon
    in [pre]; its entry exposes [pre], with [/tcp] appended when [pre]
    contains no [/], and leaves the bindings as they were: what follows
    the first colon is dropped. *)
Theorem extra_colons_ignored exposed bindings p :
  2 <= count_sep ":" p ->
  exists pre rest,
    p = pre +:+ ":" +:+ rest /\
    count_sep ":" pre = 0 /\
    docker.portEntry (exposed, bindings) p =
    Some ({[with_proto pre]} ∪ exposed, bindings).
Proof.
  intros H. destruct (split_at_first_sep ":" p) as [E Hc]; [lia|].
  exists (before_sep ":" p), (after_sep ":" p).
  split; [exact E|]. split; [exact Hc|]. apply portEntry_other. lia.
Qed.

Lemma extra_colons_ignored_witness :
  2 <= count_sep ":" "1.2.3.4:8080:80" /\
  exists pre rest,
    "1.2.3.4:8080:80" = pre +:+ ":" +:+ rest /\
    count_sep ":" pre = 0 /\
    docker.portEntry (∅, ∅) "1.2.3.4:8080:80" = Some ({[with_proto pre]} ∪ ∅, ∅).
Proof.
  assert (H : 2 <= count_sep ":" "1.2.3.4:8080:80") by (vm_compute; lia).
  split; [exact H|].
  exact (extra_colons_ignored ∅ ∅ "1.2.3.4:8080:80" H).
Defined.

(** ** Runs on the two engines *)

Lemma cache_hit_skips_build_witness :
  let base := layers.Base (layers.BaseLayer.mk "ubuntu:22.04" [] []) in
  let selected :=
    [layers.Dependency (layers.DependencyLayer.mk "nginx" ["nginx"] [] ["80"])] in
  let images : gset string := {["aig-image:d0e5863792a1"]} in
  docker.calculateTag base selected = Some "d0e5863792a1" /\
  docker.imageExists model_engine "aig-image:d0e5863792a1" (images, []) =
    (Returned true, (images, [CallImageInspect "aig-image:d0e5863792a1"])) /\
  exists evs,
    (docker.BuildAndRun model_engine base selected (images, [])).2.2 = [] ++ evs /\
    Forall (fun ev => is_build ev = false) evs.
Proof.
  intros base selected images.
  assert (Htag : docker.calculateTag base selected = Some "d0e5863792a1")
    by (vm_compute; reflexivity).
  assert (Hex : docker.imageExists model_engine ("aig-image:" +:+ "d0e5863792a1")
                  (images, []) =
                (Returned true, (images, [CallImageInspect "aig-image:d0e5863792a1"])))
    by (vm_compute; reflexivity).
  split; [exact Htag|]. split; [exact Hex|].
  exact (proj2 (cache_hit_skips_build model_engine base selected "d0e5863792a1"
                  images [] images _ Htag Hex)).
Defined.

Lemma cache_query_outcomes_witness :
  let base := layers.Base (layers.BaseLayer.mk "ubuntu:22.04" [] []) in
  let selected :=
    [layers.Dependency (layers.DependencyLayer.mk "nginx" ["nginx"] [] ["80"])] in
  docker.calculateTag base selected = Some "d0e5863792a1" /\
  ImageInspectWithRaw unreachable_engine "aig-image:d0e5863792a1" tt =
    (Some unreachable, tt) /\
  docker.BuildAndRun unreachable_engine base selected (tt, []) =
    (Failed unreachable, (tt, [] ++ [CallImageInspect "aig-image:d0e5863792a1"])).
Proof.
  intros base selected.
  assert (Htag : docker.calculateTag base selected = Some "d0e5863792a1")
    by (vm_compute; reflexivity).
  assert (Hq : ImageInspectWithRaw unreachable_engine ("aig-image:" +:+ "d0e5863792a1") tt =
               (Some unreachable, tt)) by reflexivity.
  split; [exact Htag|]. split; [exact Hq|].
  exact (proj2 (cache_query_outcomes unreachable_engine base selected "d0e5863792a1"
                  tt [] unreachable tt Htag Hq)).
Defined.

Lemma unknown_layer_stops_assembly_witness :
  let fl := cli.mkFlags "ubuntu:22.04" ["nginx"; " gox "; "go"] "" [] [] in
  (exists name, In name (cli.layerNames fl) /\
                layers.init_registry !! TrimSpace name = None) /\
  exists ns1 name ns2,
    cli.layerNames fl = ns1 ++ name :: ns2 /\
    Forall (fun name => is_Some (layers.init_registry !! TrimSpace name)) ns1 /\
    layers.init_registry !! TrimSpace name = None /\
    cli.assembleStack layers.init_registry fl (∅ : gset string, []) =
      (Failed (not_found (TrimSpace name)), (∅, [] ++ lookups (ns1 ++ [name]))) /\
    cli.RunE (inl model_engine) layers.init_registry fl (∅, []) =
      (Failed (not_found (TrimSpace name)), (∅, [] ++ lookups (ns1 ++ [name]))).
Proof.
  intros fl.
  assert (H : exists name, In name (cli.layerNames fl) /\
                           layers.init_registry !! TrimSpace name = None).
  { exists " gox ". split; [right; left; reflexivity|]. vm_compute. reflexivity. }
  split; [exact H|].
  exact (unknown_layer_stops_assembly layers.init_registry model_engine fl ∅ [] H).
Defined.

(** The scenario of the specification: an Ubuntu base and the nginx
    layer. *)
Example ubuntu_nginx_scenario :
  let base := layers.Base (layers.BaseLayer.mk "ubuntu:22.04" [] []) in
  let selected :=
    [layers.Dependency (layers.DependencyLayer.mk "nginx" ["nginx"] [] ["80"])] in
  docker.generateDockerfile base selected =
    lines ["FROM ubuntu:22.04";
           "RUN apt-get update && apt-get install -y nginx && rm -rf /var/lib/apt/lists/*"] /\
  docker.calculateTag base selected = Some "d0e5863792a1" /\
  merged_ports (base :: selected) = ["80"].
Proof. repeat split; vm_compute; reflexivity. Qed.

(** * Further properties *)

(** ** The registry *)

(** X1: looking up a name after registering a layer returns that layer
    when the name is the layer's own, whatever was registered under it
    before, and what the registry held otherwise. *)
Theorem Get_Register l registry name :
  layers.Get (layers.Register l registry) name =
  if String.eqb name (layers.GetName l) then inl l else layers.Get registry name.
Proof.
  unfold layers.Get, layers.Register.
  destruct (String.eqb_spec name (layers.GetName l)) as [->|Hne].
  - rewrite lookup_insert_eq. reflexivity.
  - rewrite lookup_insert_ne by congruence. reflexivity.
Qed.

Lemma register_all_snoc ls l :
  register_all (ls ++ [l]) = layers.Register l (register_all ls).
Proof. unfold register_all. rewrite fold_left_app. reflexivity. Qed.

(** X2: in a registry filled by [Register] alone, as the package's [init]
    fills it, a layer found under a name has that name and is one of the
    layers registered. *)
Theorem registered_under_own_name ls name l :
  layers.Get (register_all ls) name = inl l ->
  layers.GetName l = name /\ In l ls.
Proof.
  induction ls as [|l0 ls IH] using rev_ind.
  - unfold layers.Get, register_all. cbn. rewrite lookup_empty. discriminate.
  - rewrite register_all_snoc. unfold layers.Get, layers.Register.
    destruct (String.eqb_spec name (layers.GetName l0)) as [->|Hne].
    + rewrite lookup_insert_eq. intros [= <-].
      split; [reflexivity|apply in_or_app; right; left; reflexivity].
    + rewrite lookup_insert_ne by congruence. intros H.
      destruct IH as [E Hin]; [exact H|].
      split; [exact E|apply in_or_app; left; exact Hin].
Qed.

Lemma init_registry_register_all :
  layers.init_registry = register_all
    [layers.Dependency (layers.DependencyLayer.mk "python" ["python3"; "python3-pip"] [] []);
     layers.Dependency (layers.DependencyLayer.mk "node" ["nodejs"; "npm"] [] []);
     layers.Dependency (layers.DependencyLayer.mk "go" ["golang"] [] []);
     layers.Dependency (layers.DependencyLayer.mk "nginx" ["nginx"] [] ["80"]);
     layers.Custom (layers.CustomLayer.mk "node-pnpm"
       ["RUN apt-get update && apt-get install -y nodejs npm && rm -rf /var/lib/apt/lists/*";
        "RUN npm install -g pnpm"] [] []);
     layers.CustomTop (layers.CustomTopLayer.mk "opencode"
       ["RUN apt-get update && apt-get install -y nodejs npm && rm -rf /var/lib/apt/lists/*";
        "RUN npm install -g pnpm";
        "RUN pnpm add -g opencode-ai"] ["opencode"] "v1.1.59");
     layers.Top (layers.TopLayer.mk "hello-world"
       "https://github.com/docker-library/hello-world/raw/master/hello" "/hello" [] [])].
Proof. reflexivity. Qed.

(** X3: [GetAllNames] returns some list; whatever the order, it has no
    duplicates, as many names as the registry has entries, and holds
    exactly the names that [Get] resolves. *)
Theorem GetAllNames_spec registry :
  (exists names, layers.GetAllNames registry names) /\
  forall names, layers.GetAllNames registry names ->
    NoDup names /\
    List.length names = size registry /\
    forall name, In name names <-> exists l, layers.Get registry name = inl l.
Proof.
  split; [eexists; unfold layers.GetAllNames; reflexivity|].
  intros names Hp. unfold layers.GetAllNames in Hp.
  split; [|split].
  - rewrite Hp. apply NoDup_fst_map_to_list.
  - rewrite Hp, length_fmap, length_map_to_list. reflexivity.
  - intros name. rewrite <- list_elem_of_In, Hp. unfold layers.Get.
    rewrite list_elem_of_fmap. split.
    + intros ([k l] & -> & Hin). apply elem_of_map_to_list in Hin.
      cbn. rewrite Hin. eauto.
    + intros [l H]. destruct (registry !! name) as [l'|] eqn:E; [|discriminate].
      exists (name, l'). split; [reflexivity|]. apply elem_of_map_to_list, E.
Qed.

(** ** Fingerprints, tags and the Dockerfile *)

(** X4: the fingerprint of every layer is a text of exactly 64 lowercase
    hexadecimal digits. *)
Theorem fingerprint_shape l :
  String.length (layers.GetHash l) = 64 /\
  forallb is_lower_hex (list_ascii_of_string (layers.GetHash l)) = true.
Proof.
  split; [apply GetHash_length|]. rewrite GetHash_content. apply hex_lower.
Qed.

Lemma append_length (s1 s2 : string) :
  String.length (s1 +:+ s2) = String.length s1 + String.length s2.
Proof.
  induction s1 as [|c s1 IH]; [reflexivity|].
  rewrite append_cons. cbn [String.length]. rewrite IH. reflexivity.
Qed.

(** X5: the running hash of [calculateTag] has been fed the fingerprints
    of the stack one after the other, and this text determines the list of
    fingerprints: two stacks that feed the same text have the same
    fingerprints in the same order. *)
Theorem hash_input_determines_fingerprints base selected stack1 stack2 :
  fold_left (fun h l => sha256.Write h (list_byte_of_string (layers.GetHash l)))
            selected
            (sha256.Write sha256.New (list_byte_of_string (layers.GetHash base))) =
  sha256.Write sha256.New
    (list_byte_of_string (concat_fingerprints (base :: selected))) /\
  (concat_fingerprints stack1 = concat_fingerprints stack2 ->
   map layers.GetHash stack1 = map layers.GetHash stack2).
Proof.
  split; [apply running_hash_concat|].
  unfold concat_fingerprints. revert stack2.
  induction stack1 as [|l1 s1 IH]; intros [|l2 s2] H; cbn [map fold_right] in *.
  - reflexivity.
  - apply (f_equal String.length) in H. rewrite append_length, GetHash_length in H.
    cbn in H. lia.
  - apply (f_equal String.length) in H. rewrite append_length, GetHash_length in H.
    cbn in H. lia.
  - apply append_inj_same_length in H as [-> H];
      [|rewrite !GetHash_length; reflexivity].
    f_equal. apply IH, H.
Qed.

(** X6: the Dockerfile of a stack extended by further layers is the
    Dockerfile of the stack followed by the instructions of the further
    layers. *)
Theorem generateDockerfile_app base selected more :
  docker.generateDockerfile base (selected ++ more) =
  docker.generateDockerfile base selected +:+
  lines (List.concat (map layers.GetCommands more)).
Proof.
  unfold docker.generateDockerfile. rewrite fold_left_app.
  rewrite (write_layers more). reflexivity.
Qed.

(** X7: with a Base layer as base, the Dockerfile starts with the line
    [FROM] and the image, followed by the instructions of the selected
    layers. *)
Theorem generateDockerfile_from b selected :
  docker.generateDockerfile (layers.Base b) selected =
  "FROM " +:+ layers.BaseLayer.Image b +:+ newline +:+
  lines (List.concat (map layers.GetCommands selected)).
Proof.
  unfold docker.generateDockerfile. rewrite write_layers, write_commands.
  cbn [layers.GetCommands]. unfold layers.BaseLayer.GetCommands.
  cbn [lines fold_right]. rewrite append_nil_r.
  change (EmptyString +:+ ?s) with s. rewrite !append_assoc. reflexivity.
Qed.

(** ** The port loop *)

Lemma portEntry_parts exposed bindings p :
  docker.portEntry (exposed, bindings) p =
  Some ({[exposed_port p]} ∪ exposed,
        if String.eqb (host_part p) ""
        then bindings
        else <[exposed_port p := [mkPortBinding "0.0.0.0" (host_part p)]]> bindings).
Proof.
  unfold exposed_port, host_part, container_part.
  destruct (Nat.eqb_spec (count_sep ":" p) 1) as [E|E].
  - apply portEntry_one_colon, E.
  - rewrite portEntry_other by exact E. reflexivity.
Qed.

Lemma portLoop_app acc ports1 ports2 :
  docker.portLoop acc (ports1 ++ ports2) =
  match docker.portLoop acc ports1 with
  | Some acc' => docker.portLoop acc' ports2
  | None => None
  end.
Proof.
  revert acc. induction ports1 as [|p ports1 IH]; intros acc; [reflexivity|].
  cbn [app docker.portLoop]. destruct (docker.portEntry acc p); [apply IH|reflexivity].
Qed.

Lemma portLoop_invariant ports : forall acc,
  bindings_ok acc ->
  exists exposed bindings,
    docker.portLoop acc ports = Some (exposed, bindings) /\
    exposed = list_to_set (map exposed_port ports) ∪ acc.1 /\
    bindings_ok (exposed, bindings).
Proof.
  induction ports as [|p ports IH]; intros [e b] Hok.
  - exists e, b. split; [reflexivity|]. split; [set_solver|exact Hok].
  - cbn [docker.portLoop]. rewrite portEntry_parts.
    match goal with |- context [docker.portLoop ?acc' ports] =>
      destruct (IH acc') as (e' & b' & Hl & He & Hok') end.
    + intros c bs. cbn [fst snd].
      destruct (String.eqb_spec (host_part p) "") as [Hh|Hh].
      * intros Hc. destruct (Hok c bs Hc) as [Hin Hbs].
        split; [set_solver|exact Hbs].
      * destruct (decide (exposed_port p = c)) as [<-|Hne].
        -- rewrite lookup_insert_eq. intros [= <-].
           split; [set_solver|]. exists (host_part p). split; [exact Hh|reflexivity].
        -- rewrite lookup_insert_ne by exact Hne. intros Hc.
           destruct (Hok c bs Hc) as [Hin Hbs]. split; [set_solver|exact Hbs].
    + exists e', b'. split; [exact Hl|]. split; [|exact Hok'].
      rewrite He. cbn [fst map list_to_set]. set_solver.
Qed.

(** X8: the loop over the port specs never panics; it exposes exactly the
    container ports of the specs, and every binding it makes is for an
    exposed port, to one non-empty host port on all interfaces. *)
Theorem portLoop_total ports :
  exists exposed bindings,
    docker.portLoop (∅, ∅) ports = Some (exposed, bindings) /\
    exposed = list_to_set (map exposed_port ports) /\
    forall c bs, bindings !! c = Some bs ->
      c ∈ exposed /\
      exists host, host <> EmptyString /\ bs = [mkPortBinding "0.0.0.0" host].
Proof.
  destruct (portLoop_invariant ports (∅, ∅)) as (e & b & Hl & He & Hok).
  - intros c bs H. cbn in H. rewrite lookup_empty in H. discriminate H.
  - exists e, b. split; [exact Hl|]. split; [|exact Hok].
    rewrite He. cbn [fst]. set_solver.
Qed.

Lemma portLoop_keeps_binding ports : forall e b c,
  forallb (fun p => negb (binds_port c p)) ports = true ->
  exists e' b', docker.portLoop (e, b) ports = Some (e', b') /\ b' !! c = b !! c.
Proof.
  induction ports as [|p ports IH]; intros e b c Hno.
  - exists e, b. split; reflexivity.
  - cbn [forallb] in Hno. apply andb_prop in Hno as [Hp Hno].
    cbn [docker.portLoop]. rewrite portEntry_parts.
    match goal with |- context [docker.portLoop (?e1, ?b1) ports] =>
      destruct (IH e1 b1 c Hno) as (e' & b' & Hl & Hb) end.
    exists e', b'. split; [exact Hl|]. rewrite Hb.
    unfold binds_port in Hp.
    destruct (String.eqb_spec (host_part p) ""); [reflexivity|].
    destruct (String.eqb_spec (exposed_port p) c) as [E|E]; [discriminate Hp|].
    apply lookup_insert_ne, E.
Qed.

(** X9: a spec with a host part binds its container port to that host
    port, replacing what earlier specs bound it to, unless a later spec
    binds the same container port. *)
Theorem last_binding_wins acc before p after :
  host_part p <> EmptyString ->
  forallb (fun q => negb (binds_port (exposed_port p) q)) after = true ->
  exists exposed bindings,
    docker.portLoop acc (before ++ p :: after) = Some (exposed, bindings) /\
    bindings !! exposed_port p = Some [mkPortBinding "0.0.0.0" (host_part p)].
Proof.
  intros Hh Hafter. rewrite portLoop_app.
  assert (Hb : exists acc', docker.portLoop acc before = Some acc').
  { clear. revert acc. induction before as [|q qs IH]; intros [e b]; [eauto|].
    cbn [docker.portLoop]. rewrite portEntry_parts. apply IH. }
  destruct Hb as [[e b] ->]. cbn [docker.portLoop]. rewrite portEntry_parts.
  apply String.eqb_neq in Hh. rewrite Hh.
  match goal with |- context [docker.portLoop (?e1, ?b1) after] =>
    destruct (portLoop_keeps_binding after e1 b1 (exposed_port p) Hafter)
      as (e' & b' & Hl & Hk) end.
  exists e', b'. split; [exact Hl|]. rewrite Hk. apply lookup_insert_eq.
Qed.

(** ** Outcomes of a run *)

Section Run.
Context {W : Type}.
Variable cli : Client W.

Lemma call_result {R} ev (f : W -> R * W) w tr r w' :
  f w = (r, w') -> call ev f (w, tr) = (Returned r, (w', tr ++ [ev])).
Proof. intros H. unfold call. cbn [fst snd]. rewrite H. reflexivity. Qed.

Lemma bind_returned {A B} (c : M W A) (k : A -> M W B) s a s' :
  c s = (Returned a, s') -> bind c k s = k a s'.
Proof. intros H. unfold bind. rewrite H. reflexivity. Qed.

Lemma bind_failed {A B} (c : M W A) (k : A -> M W B) s e s' :
  c s = (Failed e, s') -> bind c k s = (Failed e, s').
Proof. intros H. unfold bind. rewrite H. reflexivity. Qed.

(** The request [runContainer] sends to create the container. *)
Variables (imageName : string) (volumes ports : list string).
Variables (exposed : gset string) (bindings : gmap string (list PortBinding)).
Hypothesis Hports : docker.portLoop (∅, ∅) ports = Some (exposed, bindings).

Let cfg := container.mkConfig imageName true exposed.
Let host := container.mkHostConfig volumes bindings.

(** X10: when the engine fails to create the container, [runContainer]
    returns that error and makes no further call. *)
Theorem create_failure_stops w tr e w1 :
  ContainerCreate cli cfg host w = (inr e, w1) ->
  docker.runContainer cli imageName volumes ports (w, tr) =
  (Failed e, (w1, tr ++ [CallContainerCreate cfg host])).
Proof using Hports.
  intros Hc. unfold docker.runContainer. rewrite Hports. fold cfg host.
  rewrite (bind_returned _ _ _ _ _ (call_result _ _ _ _ _ _ Hc)). reflexivity.
Qed.

(** X11: when the engine fails to start the container, [runContainer]
    returns that error without waiting for the container or asking for
    its logs. *)
Theorem start_failure_stops w tr id w1 e w2 :
  ContainerCreate cli cfg host w = (inl id, w1) ->
  ContainerStart cli id w1 = (Some e, w2) ->
  docker.runContainer cli imageName volumes ports (w, tr) =
  (Failed e, (w2, tr ++ [CallContainerCreate cfg host; CallContainerStart id])).
Proof using Hports.
  intros Hc Hs. unfold docker.runContainer. rewrite Hports. fold cfg host.
  rewrite (bind_returned _ _ _ _ _ (call_result _ _ _ _ _ _ Hc)).
  rewrite (bind_returned _ _ _ _ _ (call_result _ _ _ _ _ _ Hs)).
  rewrite <- app_assoc. reflexivity.
Qed.

(** X12: when the engine returns a container id of fewer than 12 bytes,
    [runContainer] panics on [resp.ID[:12]] once the container is started:
    nothing is printed, waited for or logged. *)
Theorem short_id_panics w tr id w1 w2 :
  ContainerCreate cli cfg host w = (inl id, w1) ->
  ContainerStart cli id w1 = (None, w2) ->
  String.length id < 12 ->
  docker.runContainer cli imageName volumes ports (w, tr) =
  (Panicked, (w2, tr ++ [CallContainerCreate cfg host; CallContainerStart id])).
Proof using Hports.
  intros Hc Hs Hlen. unfold docker.runContainer. rewrite Hports. fold cfg host.
  rewrite (bind_returned _ _ _ _ _ (call_result _ _ _ _ _ _ Hc)).
  rewrite (bind_returned _ _ _ _ _ (call_result _ _ _ _ _ _ Hs)).
  unfold slice_to. destruct (Nat.leb_spec 12 (String.length id)); [lia|].
  rewrite <- app_assoc. reflexivity.
Qed.

(** X13: once the container is started, the run prints the first 12
    bytes of its id, asks for the wait and then for the logs, and ends as
    the wait says: with the error received from the error channel, and
    with no error on a nil error or a status.  A failure to get the logs
    changes nothing but that no log copy is started. *)
Theorem started_run_ends_with_wait w tr id w1 w2 res w3 lerr w4 :
  ContainerCreate cli cfg host w = (inl id, w1) ->
  ContainerStart cli id w1 = (None, w2) ->
  12 <= String.length id ->
  ContainerWait cli id w2 = (res, w3) ->
  ContainerLogs cli id w3 = (lerr, w4) ->
  docker.runContainer cli imageName volumes ports (w, tr) =
  (wait_outcome res,
   (w4, tr ++ [CallContainerCreate cfg host; CallContainerStart id;
               started_line (String.substring 0 12 id);
               CallContainerWait id; CallContainerLogs id] ++
              match lerr with None => [GoCopyLogs id] | Some _ => [] end)).
Proof using Hports.
  intros Hc Hs Hlen Hw Hl. unfold docker.runContainer. rewrite Hports. fold cfg host.
  rewrite (bind_returned _ _ _ _ _ (call_result _ _ _ _ _ _ Hc)).
  rewrite (bind_returned _ _ _ _ _ (call_result _ _ _ _ _ _ Hs)).
  unfold slice_to. destruct (Nat.leb_spec 12 (String.length id)); [|lia].
  unfold bind at 1. unfold tell at 1. cbn [fst snd].
  rewrite (bind_returned _ _ _ _ _ (call_result _ _ _ _ _ _ Hw)).
  rewrite (bind_returned _ _ _ _ _ (call_result _ _ _ _ _ _ Hl)).
  unfold started_line, wait_outcome.
  destruct lerr as [le|], res as [[e|]|]; unfold bind, tell, ret, fail; cbn [fst snd];
    rewrite <- ?app_assoc; reflexivity.
Qed.

End Run.

Section Build.
Context {W : Type}.
Variable cli : Client W.
Variables (base : layers.Layer) (selected : list layers.Layer) (tag : string).
Hypothesis Htag : docker.calculateTag base selected = Some tag.

Let imageName := "aig-image:" +:+ tag.
Let dockerfile := docker.generateDockerfile base selected.
Let options := build_options dockerfile imageName.
Let building := Printf ("Building image " +:+ imageName +:+ "..." +:+ newline).

(** X14: on a cache miss the build is submitted with the generated
    Dockerfile as the one file of its context and the image name as its
    tag.  An error of the build call, or of the copy of its output, ends
    the run with that error before any container is created; otherwise the
    run goes on with [runContainer] on the merged volumes and ports. *)
Theorem build_outcomes w tr e w1 r w2 :
  ImageInspectWithRaw cli imageName w = (Some e, w1) ->
  IsErrNotFound e = true ->
  ImageBuild cli (Context options) options w1 = (r, w2) ->
  docker.BuildAndRun cli base selected (w, tr) =
  match r with
  | inr err =>
    (Failed err, (w2, tr ++ [CallImageInspect imageName; building;
                             CallImageBuild options]))
  | inl body =>
    let tr' := tr ++ [CallImageInspect imageName; building;
                      CallImageBuild options; CopyBuildOutput (bodyOutput body)] in
    match bodyError body with
    | Some err => (Failed err, (w2, tr'))
    | None =>
      docker.runContainer cli imageName
        (merged_volumes (base :: selected)) (merged_ports (base :: selected))
        (w2, tr')
    end
  end.
Proof using Htag.
  intros Hq Hnf Hb.
  rewrite (BuildAndRun_unfold cli base selected tag Htag). fold imageName dockerfile.
  assert (Hex : docker.imageExists cli imageName (w, tr) =
                (Returned false, (w1, tr ++ [CallImageInspect imageName]))).
  { unfold docker.imageExists.
    rewrite (bind_returned _ _ _ _ _ (call_result _ _ _ _ _ _ Hq)).
    rewrite Hnf. reflexivity. }
  rewrite (bind_returned _ _ _ _ _ Hex). cbn [negb].
  unfold docker.buildImage. fold (build_options dockerfile imageName). fold options.
  unfold bind at 1 2. unfold tell at 1. cbn [fst snd]. fold building.
  change [mkTarFile "Dockerfile" dockerfile] with (Context options).
  rewrite (bind_returned _ _ _ _ _ (call_result _ _ _ _ _ _ Hb)).
  destruct r as [body|err].
  - cbn zeta. unfold bind at 1. unfold tell at 1. cbn [fst snd].
    destruct (bodyError body); unfold fail, ret; rewrite <- !app_assoc; reflexivity.
  - unfold fail. rewrite <- !app_assoc. reflexivity.
Qed.

End Build.

(** ** Resolved stacks *)

Section Resolved.
Context {W : Type}.
Variable registry : gmap string layers.Layer.

Lemma selectLayers_in_order names : forall ls acc (w : W) tr,
  Forall2 (fun name l => registry !! TrimSpace name = Some l) names ls ->
  cli.selectLayers registry names acc (w, tr) =
  (Returned (acc ++ ls), (w, tr ++ lookups names)).
Proof.
  induction names as [|name names IH]; intros ls acc w tr H.
  - inversion H; subst. cbn. rewrite !app_nil_r. reflexivity.
  - inversion H as [|? l ? ls' Hl Hrest]; subst.
    cbn [cli.selectLayers]. unfold bind at 1.
    rewrite (lookup_present _ _ l) by exact Hl. cbn [fst snd].
    rewrite (IH ls') by exact Hrest. cbn [lookups map].
    rewrite <- !app_assoc. reflexivity.
Qed.

(** X15: when every requested name resolves, the command runs the builder
    on the base made of the flags and on the resolved layers in the order
    requested, duplicates included, with the top layer last when one is
    named; the names are looked up in that order, the top name untrimmed. *)
Theorem resolved_stack_keeps_order (client : Client W) fl ls tops w tr :
  Forall2 (fun name l => registry !! TrimSpace name = Some l) (cli.layerNames fl) ls ->
  (if String.eqb (cli.topLayerName fl) ""
   then tops = []
   else exists top, registry !! cli.topLayerName fl = Some top /\ tops = [top]) ->
  cli.RunE (inl client) registry fl (w, tr) =
  docker.BuildAndRun client
    (layers.Base (layers.BaseLayer.mk (cli.baseImage fl) (cli.volumes fl) (cli.ports fl)))
    (ls ++ tops)
    (w, tr ++ lookups (cli.layerNames fl) ++
        (if String.eqb (cli.topLayerName fl) "" then []
         else [RegistryGet (cli.topLayerName fl)])).
Proof.
  intros Hls Htop. unfold cli.RunE, cli.assembleStack.
  unfold bind at 1 2. rewrite (selectLayers_in_order _ ls) by exact Hls. cbn [app].
  destruct (String.eqb (cli.topLayerName fl) "").
  - subst tops. cbn [negb]. unfold ret. rewrite !app_nil_r. reflexivity.
  - destruct Htop as (top & Ht & ->). cbn [negb]. unfold bind at 1.
    rewrite (lookup_present _ _ top) by exact Ht. cbn [fst snd]. unfold ret.
    rewrite <- app_assoc. reflexivity.
Qed.
End Resolved.

(** ** The further properties at concrete inputs *)

Lemma registered_under_own_name_witness :
  let nginx := layers.Dependency (layers.DependencyLayer.mk "nginx" ["nginx"] [] ["80"]) in
  let web := layers.Custom (layers.CustomLayer.mk "nginx" ["RUN true"] [] []) in
  layers.Get (register_all [nginx; web]) "nginx" = inl web /\
  layers.GetName web = "nginx" /\ In web [nginx; web].
Proof.
  intros nginx web.
  assert (H : layers.Get (register_all [nginx; web]) "nginx" = inl web)
    by (vm_compute; reflexivity).
  split; [exact H|].
  exact (registered_under_own_name [nginx; web] "nginx" web H).
Defined.

Lemma last_binding_wins_witness :
  host_part "9090:80" <> EmptyString /\
  forallb (fun q => negb (binds_port (exposed_port "9090:80") q)) ["80"; "53/udp"] = true /\
  exists exposed bindings,
    docker.portLoop (∅, ∅) (["8080:80"] ++ "9090:80" :: ["80"; "53/udp"]) =
      Some (exposed, bindings) /\
    bindings !! exposed_port "9090:80" =
      Some [mkPortBinding "0.0.0.0" (host_part "9090:80")].
Proof.
  assert (Hh : host_part "9090:80" <> EmptyString) by (vm_compute; discriminate).
  assert (Ha : forallb (fun q => negb (binds_port (exposed_port "9090:80") q))
                       ["80"; "53/udp"] = true) by (vm_compute; reflexivity).
  split; [exact Hh|]. split; [exact Ha|].
  exact (last_binding_wins (∅, ∅) ["8080:80"] "9090:80" ["80"; "53/udp"] Hh Ha).
Defined.

Lemma create_failure_stops_witness :
  let engine := scripted_engine None (inr unreachable) (inr unreachable) None
                                FromStatusCh None in
  docker.portLoop (∅, ∅) [] = Some (∅, ∅) /\
  docker.runContainer engine "aig-image:d0e5863792a1" ["/data:/data"] [] (tt, []) =
    (Failed unreachable,
     (tt, [] ++ [CallContainerCreate
                   (container.mkConfig "aig-image:d0e5863792a1" true ∅)
                   (container.mkHostConfig ["/data:/data"] ∅)])).
Proof.
  intros engine.
  assert (Hp : docker.portLoop (∅, ∅) [] = Some (∅, ∅)) by reflexivity.
  split; [exact Hp|].
  exact (create_failure_stops engine "aig-image:d0e5863792a1" ["/data:/data"] []
           ∅ ∅ Hp tt [] unreachable tt eq_refl).
Defined.

Lemma start_failure_stops_witness :
  let engine := scripted_engine None (inr unreachable) (inl "4f1c0a9be2d37a55c0de")
                                (Some unreachable) FromStatusCh None in
  docker.portLoop (∅, ∅) [] = Some (∅, ∅) /\
  docker.runContainer engine "aig-image:d0e5863792a1" [] [] (tt, []) =
    (Failed unreachable,
     (tt, [] ++ [CallContainerCreate
                   (container.mkConfig "aig-image:d0e5863792a1" true ∅)
                   (container.mkHostConfig [] ∅);
                 CallContainerStart "4f1c0a9be2d37a55c0de"])).
Proof.
  intros engine.
  assert (Hp : docker.portLoop (∅, ∅) [] = Some (∅, ∅)) by reflexivity.
  split; [exact Hp|].
  exact (start_failure_stops engine "aig-image:d0e5863792a1" [] [] ∅ ∅ Hp
           tt [] "4f1c0a9be2d37a55c0de" tt unreachable tt eq_refl eq_refl).
Defined.

Lemma short_id_panics_witness :
  let engine := scripted_engine None (inr unreachable) (inl "4f1c0a9")
                                None FromStatusCh None in
  docker.portLoop (∅, ∅) [] = Some (∅, ∅) /\
  String.length "4f1c0a9" < 12 /\
  docker.runContainer engine "aig-image:d0e5863792a1" [] [] (tt, []) =
    (Panicked,
     (tt, [] ++ [CallContainerCreate
                   (container.mkConfig "aig-image:d0e5863792a1" true ∅)
                   (container.mkHostConfig [] ∅);
                 CallContainerStart "4f1c0a9"])).
Proof.
  intros engine.
  assert (Hp : docker.portLoop (∅, ∅) [] = Some (∅, ∅)) by reflexivity.
  assert (Hl : String.length "4f1c0a9" < 12) by (vm_compute; lia).
  split; [exact Hp|]. split; [exact Hl|].
  exact (short_id_panics engine "aig-image:d0e5863792a1" [] [] ∅ ∅ Hp
           tt [] "4f1c0a9" tt tt eq_refl eq_refl Hl).
Defined.

Lemma started_run_ends_with_wait_witness :
  let engine := scripted_engine None (inr unreachable) (inl "4f1c0a9be2d37a55c0de")
                                None (FromErrCh None) (Some unreachable) in
  docker.portLoop (∅, ∅) [] = Some (∅, ∅) /\
  12 <= String.length "4f1c0a9be2d37a55c0de" /\
  docker.runContainer engine "aig-image:d0e5863792a1" [] [] (tt, []) =
    (Returned tt,
     (tt, [] ++ [CallContainerCreate
                   (container.mkConfig "aig-image:d0e5863792a1" true ∅)
                   (container.mkHostConfig [] ∅);
                 CallContainerStart "4f1c0a9be2d37a55c0de";
                 started_line (String.substring 0 12 "4f1c0a9be2d37a55c0de");
                 CallContainerWait "4f1c0a9be2d37a55c0de";
                 CallContainerLogs "4f1c0a9be2d37a55c0de"] ++ [])).
Proof.
  intros engine.
  assert (Hp : docker.portLoop (∅, ∅) [] = Some (∅, ∅)) by reflexivity.
  assert (Hl : 12 <= String.length "4f1c0a9be2d37a55c0de") by (vm_compute; lia).
  split; [exact Hp|]. split; [exact Hl|].
  exact (started_run_ends_with_wait engine "aig-image:d0e5863792a1" [] [] ∅ ∅ Hp
           tt [] "4f1c0a9be2d37a55c0de" tt tt (FromErrCh None) tt (Some unreachable) tt
           eq_refl eq_refl Hl eq_refl eq_refl).
Defined.

Lemma build_outcomes_witness :
  let base := layers.Base (layers.BaseLayer.mk "ubuntu:22.04" [] []) in
  let selected :=
    [layers.Dependency (layers.DependencyLayer.mk "nginx" ["nginx"] [] ["80"])] in
  let missing := ClientError true "No such image" in
  let broken := Errorf "build failed" in
  let engine := scripted_engine (Some missing) (inr broken) (inl "4f1c0a9be2d37a55c0de")
                                None FromStatusCh None in
  docker.calculateTag base selected = Some "d0e5863792a1" /\
  IsErrNotFound missing = true /\
  docker.BuildAndRun engine base selected (tt, []) =
    (Failed broken,
     (tt, [] ++ [CallImageInspect ("aig-image:" +:+ "d0e5863792a1");
                 Printf ("Building image " +:+ ("aig-image:" +:+ "d0e5863792a1")
                           +:+ "..." +:+ newline);
                 CallImageBuild
                   (build_options (docker.generateDockerfile base selected)
                                  ("aig-image:" +:+ "d0e5863792a1"))])).
Proof.
  intros base selected missing broken engine.
  assert (Htag : docker.calculateTag base selected = Some "d0e5863792a1")
    by (vm_compute; reflexivity).
  assert (Hnf : IsErrNotFound missing = true) by reflexivity.
  split; [exact Htag|]. split; [exact Hnf|].
  exact (build_outcomes engine base selected "d0e5863792a1" Htag
           tt [] missing tt (inr broken) tt eq_refl Hnf eq_refl).
Defined.

Lemma resolved_stack_keeps_order_witness :
  let nginx := layers.Dependency (layers.DependencyLayer.mk "nginx" ["nginx"] [] ["80"]) in
  let hello := layers.Top (layers.TopLayer.mk "hello-world" "hello" "/hello" [] []) in
  let registry := register_all [nginx; hello] in
  let fl := cli.mkFlags "ubuntu:22.04" [" nginx"; "nginx "] "hello-world" [] ["8080:80"] in
  Forall2 (fun name l => registry !! TrimSpace name = Some l)
          (cli.layerNames fl) [nginx; nginx] /\
  (exists top, registry !! cli.topLayerName fl = Some top /\ [hello] = [top]) /\
  cli.RunE (inl unreachable_engine) registry fl (tt, []) =
  docker.BuildAndRun unreachable_engine
    (layers.Base (layers.BaseLayer.mk "ubuntu:22.04" [] ["8080:80"]))
    ([nginx; nginx] ++ [hello])
    (tt, [] ++ lookups [" nginx"; "nginx "] ++ [RegistryGet "hello-world"]).
Proof.
  intros nginx hello registry fl.
  assert (Hls : Forall2 (fun name l => registry !! TrimSpace name = Some l)
                        (cli.layerNames fl) [nginx; nginx]).
  { repeat constructor; vm_compute; reflexivity. }
  assert (Htop : exists top, registry !! cli.topLayerName fl = Some top /\ [hello] = [top]).
  { exists hello. split; [vm_compute; reflexivity|reflexivity]. }
  split; [exact Hls|]. split; [exact Htop|].
  exact (resolved_stack_keeps_order registry unreachable_engine fl
           [nginx; nginx] [hello] tt [] Hls Htop).
Defined.

Lemma unknown_top_layer_stops_assembly_witness :
  let fl := cli.mkFlags "ubuntu:22.04" ["nginx"; "go"] " hello-world" [] [] in
  Forall (fun name => is_Some (layers.init_registry !! TrimSpace name))
         (cli.layerNames fl) /\
  cli.topLayerName fl <> EmptyString /\
  layers.init_registry !! cli.topLayerName fl = None /\
  cli.RunE (inl unreachable_engine) layers.init_registry fl (tt, []) =
    (Failed (not_found " hello-world"),
     (tt, [] ++ lookups ["nginx"; "go"] ++ [RegistryGet " hello-world"])).
Proof.
  intros fl.
  assert (Hall : Forall (fun name => is_Some (layers.init_registry !! TrimSpace name))
                        (cli.layerNames fl)).
  { repeat constructor; vm_compute; eexists; reflexivity. }
  assert (Hne : cli.topLayerName fl <> EmptyString) by discriminate.
  assert (Hnone : layers.init_registry !! cli.topLayerName fl = None)
    by (vm_compute; reflexivity).
  split; [exact Hall|]. split; [exact Hne|]. split; [exact Hnone|].
  exact (unknown_top_layer_stops_assembly layers.init_registry unreachable_engine fl
           tt [] Hall Hne Hnone).
Defined.
